(** * chess_zero.agent.model_chess: the policy/value network and its persistence

    A shallow embedding of [src/chess_zero/agent/model_chess.py]:
    - [hashlib.sha256] as used by [ChessModel.fetch_digest];
    - the local file system, the FTP session and the Keras (de)serialisers
      that [ChessModel.load] and [ChessModel.save] drive;
    - the layer graph that [ChessModel.build] and [BetterChessModel.build]
      construct. *)

From Stdlib Require Import ZArith List String Ascii Lia Bool QArith.
From Stdlib.Strings Require Import Byte.
From Stdlib Require Import DecimalString.
From Stdlib Require Import SpecFloat.
From stdpp Require Import base option gmap strings list fin_maps.

Local Open Scope string_scope.
Local Open Scope list_scope.
Local Open Scope Z_scope.

#[global] Instance byte_eq_decision : EqDecision byte := Byte.byte_eq_dec.

(** ** hashlib.sha256

    Python's [hashlib.sha256()] object: [update] feeds bytes, [hexdigest]
    returns the lower-case hexadecimal SHA-256 of everything fed so far.
    Words are 32-bit unsigned integers held in [Z]. *)

Module Sha256.

Definition mask32 : Z := 0xFFFFFFFF.
Definition w32 (x : Z) : Z := Z.land x mask32.
Definition add32 (x y : Z) : Z := w32 (x + y).
Definition rotr (n x : Z) : Z := Z.lor (Z.shiftr x n) (w32 (Z.shiftl x (32 - n))).
Definition shr (n x : Z) : Z := Z.shiftr x n.
Definition not32 (x : Z) : Z := Z.lxor x mask32.

Definition Ch (x y z : Z) : Z := Z.lxor (Z.land x y) (Z.land (not32 x) z).
Definition Maj (x y z : Z) : Z :=
  Z.lxor (Z.lxor (Z.land x y) (Z.land x z)) (Z.land y z).
Definition Sigma0 (x : Z) : Z := Z.lxor (Z.lxor (rotr 2 x) (rotr 13 x)) (rotr 22 x).
Definition Sigma1 (x : Z) : Z := Z.lxor (Z.lxor (rotr 6 x) (rotr 11 x)) (rotr 25 x).
Definition sigma0 (x : Z) : Z := Z.lxor (Z.lxor (rotr 7 x) (rotr 18 x)) (shr 3 x).
Definition sigma1 (x : Z) : Z := Z.lxor (Z.lxor (rotr 17 x) (rotr 19 x)) (shr 10 x).

(** The round constants and the initial state are the first 32 bits of the
    fractional parts of the cube roots of the first 64 primes and of the
    square roots of the first 8. *)
Definition is_prime (n : Z) : bool :=
  (1 <? n)
  && List.forallb (fun d => negb ((d * d <=? n) && (n mod d =? 0)))
       (List.map Z.of_nat (List.seq 2 (Z.to_nat n - 2))).

Definition primes (count : nat) : list Z :=
  List.firstn count (List.filter is_prime (List.map Z.of_nat (List.seq 2 310))).

(** The integer cube root, found bit by bit from bit [bits - 1] down. *)
Fixpoint cube_root (bits : nat) (n r : Z) : Z :=
  match bits with
  | O => r
  | S b =>
      let c := r + Z.shiftl 1 (Z.of_nat b) in
      cube_root b n (if c * c * c <=? n then c else r)
  end.

Definition K : list Z :=
  Eval vm_compute in
    List.map (fun p => w32 (cube_root 40 (Z.shiftl p 96) 0)) (primes 64).

Definition H0 : list Z :=
  Eval vm_compute in
    List.map (fun p => w32 (Z.sqrt (Z.shiftl p 64))) (primes 8).

Definition byte_val (b : byte) : Z := Z.of_N (Byte.to_N b).

(** Big-endian encoding of [x] on [n] bytes, as byte values. *)
Fixpoint be_bytes (n : nat) (x : Z) : list Z :=
  match n with
  | O => []
  | S n' => Z.land (Z.shiftr x (8 * Z.of_nat n')) 0xFF :: be_bytes n' x
  end.

(** Message padding: a [0x80] byte, zeros up to 56 mod 64, then the bit
    length on 8 bytes. *)
Definition pad (msg : list Z) : list Z :=
  let len := Z.of_nat (List.length msg) in
  let zeros := Z.to_nat ((55 - len) mod 64) in
  msg ++ 0x80 :: List.repeat 0 zeros ++ be_bytes 8 (8 * len).

Fixpoint words_of_bytes (bs : list Z) : list Z :=
  match bs with
  | b0 :: b1 :: b2 :: b3 :: rest =>
      Z.lor (Z.shiftl b0 24) (Z.lor (Z.shiftl b1 16) (Z.lor (Z.shiftl b2 8) b3))
      :: words_of_bytes rest
  | _ => []
  end.

Definition wnth (w : list Z) (i : nat) : Z := List.nth i w 0.

(** The message schedule: [n] more words appended to the words so far. *)
Fixpoint schedule (n : nat) (w : list Z) : list Z :=
  match n with
  | O => w
  | S n' =>
      let t := List.length w in
      let x := add32 (add32 (sigma1 (wnth w (t - 2))) (wnth w (t - 7)))
                     (add32 (sigma0 (wnth w (t - 15))) (wnth w (t - 16))) in
      schedule n' (w ++ [x])
  end.

Record regs := Regs { ra : Z; rb : Z; rc : Z; rd : Z; re : Z; rf : Z; rg : Z; rh : Z }.

Definition round (s : regs) (kw : Z * Z) : regs :=
  let '(k, w) := kw in
  let t1 := add32 (add32 (add32 (rh s) (Sigma1 (re s))) (Ch (re s) (rf s) (rg s)))
                  (add32 k w) in
  let t2 := add32 (Sigma0 (ra s)) (Maj (ra s) (rb s) (rc s)) in
  Regs (add32 t1 t2) (ra s) (rb s) (rc s) (add32 (rd s) t1) (re s) (rf s) (rg s).

Definition regs_of (h : list Z) : regs :=
  Regs (wnth h 0) (wnth h 1) (wnth h 2) (wnth h 3)
       (wnth h 4) (wnth h 5) (wnth h 6) (wnth h 7).

Definition list_of (s : regs) : list Z :=
  [ra s; rb s; rc s; rd s; re s; rf s; rg s; rh s].

Definition compress (h : list Z) (block : list Z) : list Z :=
  let w := schedule 48 (words_of_bytes block) in
  let s := List.fold_left round (List.combine K w) (regs_of h) in
  List.map (fun p => add32 (fst p) (snd p)) (List.combine h (list_of s)).

(** The 64-byte blocks of a padded message, consumed with [fuel] steps. *)
Fixpoint blocks (fuel : nat) (h : list Z) (bs : list Z) : list Z :=
  match fuel with
  | O => h
  | S fuel' =>
      match bs with
      | [] => h
      | _ => blocks fuel' (compress h (List.firstn 64 bs)) (List.skipn 64 bs)
      end
  end.

Definition digest_words (msg : list byte) : list Z :=
  let p := pad (List.map byte_val msg) in
  blocks (List.length p) H0 p.

Definition hex_digit (n : Z) : ascii :=
  ascii_of_N (Z.to_N (if n <? 10 then 48 + n else 87 + n)).

Fixpoint hex_of_bytes (bs : list Z) : string :=
  match bs with
  | [] => EmptyString
  | b :: rest =>
      String (hex_digit (Z.shiftr b 4)) (String (hex_digit (Z.land b 0xF)) (hex_of_bytes rest))
  end.

Definition digest_bytes (msg : list byte) : list Z :=
  List.concat (List.map (be_bytes 4) (digest_words msg)).

(** The hash object: the bytes fed so far. *)
Record hash := Hash { fed : list byte }.

Definition new : hash := Hash [].
Definition update (m : hash) (data : list byte) : hash := Hash (fed m ++ data).
Definition hexdigest (m : hash) : string := hex_of_bytes (digest_bytes (fed m)).

End Sha256.

(** The hex digest of [data] fed to a fresh hash object in one [update]. *)
Definition sha256_of (data : list byte) : string :=
  Sha256.hexdigest (Sha256.update Sha256.new data).

(** ** Python results

    A call either returns a value or raises.  State changes made before a
    raise persist, so every effectful function returns its result together
    with the state it leaves. *)

Inductive exn :=
| TypeError            (* calling something that is not callable *)
| AttributeError       (* attribute access on [None] *)
| FileNotFoundError    (* opening a missing file for reading *)
| FtpError             (* whatever [ftplib] raises: refused login, 550, dropped link *)
| JSONDecodeError      (* [json.load] on text that is not JSON *)
| ConfigError          (* [Model.from_config] on a description it rejects *)
| WeightsError.        (* [load_weights] on a file that does not fit the graph *)

Inductive result (A : Type) :=
| Return (a : A)
| Raise (e : exn).
Arguments Return {A} a.
Arguments Raise {A} e.

(** ** The Keras layer graph

    Layers are described by their constructor arguments, tensors by the
    layer calls that produce them (the symbolic graph Keras records). *)

Inductive kernel :=
| KInt (k : Z)              (* kernel_size=k *)
| KPair (kh kw : Z).        (* kernel_size=(kh, kw) *)

Inductive padding := pad_valid | pad_same.

Inductive activation := act_linear | act_relu | act_softmax | act_tanh.

Inductive layer :=
| Conv2D (filters : Z) (kernel_size : kernel) (pad : padding) (data_format : string)
         (use_bias : bool) (kernel_regularizer : option Q) (name : option string)
| SeparableConv2D (filters : Z) (kernel_size : kernel) (pad : padding)
         (data_format : string) (use_bias : bool)
| BatchNormalization (axis : Z) (name : option string)
| Activation (act : activation) (name : option string)
| LeakyReLU (alpha : Q)
| Flatten (name : option string)
| Dense (units : Z) (kernel_regularizer : option Q) (act : activation) (name : option string)
| Add (name : option string)
| Concatenate (axis : Z).

#[warnings="-register-all"]
Inductive tensor :=
| Input (shape : list Z)
| Call (l : layer) (args : list tensor).

(** ** Config

    [chess_zero.config.Config] as far as this file reads it. *)

Record ModelConfig := {
  cnn_filter_num : Z;
  cnn_first_filter_size : Z;
  cnn_filter_size : Z;
  res_layer_num : Z;
  l2_reg : Q;
  value_fc_size : Z;
  distributed : bool
}.

Record ResourceConfig := {
  model_best_config_path : string;
  model_best_weight_path : string;
  model_best_distributed_ftp_server : string;
  model_best_distributed_ftp_user : string;
  model_best_distributed_ftp_password : string;
  model_best_distributed_ftp_remote_path : string
}.

Module Config.
Record t := {
  model : ModelConfig;
  resource : ResourceConfig;
  n_labels : Z
}.
End Config.

(** ** Keras models on disk

    The operations of [keras.engine.training.Model] and [json] that [load]
    and [save] call.  A deserialiser returns [None] where the Python call
    raises. *)

Class Keras := {
  Model : Type;
  Json : Type;
  (* Model(in_x, [policy_out, value_out], name=...) *)
  Model_init : tensor -> list tensor -> string -> Model;
  (* json.dump(model.get_config(), f): the text written *)
  get_config_json : Model -> list byte;
  (* json.load(f) *)
  json_load : list byte -> option Json;
  (* Model.from_config(...) *)
  Model_from_config : Json -> option Model;
  (* model.save_weights(path): the bytes of the file written *)
  save_weights : Model -> list byte;
  (* model.load_weights(path) *)
  load_weights : Model -> list byte -> option Model;
  (* model._make_predict_function() *)
  make_predict_function : Model -> Model;
  Observation : Type;
  Prediction : Type;
  (* model.predict(x) *)
  predict : Model -> Observation -> Prediction
}.

(** ** The FTP server

    What the remote end does when asked: whether login and [cwd] succeed,
    which bytes a [RETR] hands to the callback and whether the transfer then
    completes, whether a [STOR] is accepted. *)

Record ftp_server := {
  ftp_login : string -> string -> string -> bool;
  ftp_cwd_ok : string -> bool;
  ftp_retr : string -> list byte * bool;
  ftp_stor : string -> list byte -> bool;
  ftp_quit_ok : bool
}.

Inductive ftp_event :=
| EvConnect (host user passwd : string)
| EvCwd (dir : string)
| EvRetr (cmd : string)
| EvStor (cmd : string) (data : list byte)
| EvQuit.

Section Persistence.
Context `{K : Keras}.

(** ** ChessModel

    The attributes [load], [save] and [build] read and write; the serving
    API ([api], [get_pipes]) is left out. *)

Record ChessModel := {
  config : Config.t;
  model : option Model;
  digest : option string
}.

(** [ChessModel.__init__] *)
Definition ChessModel_init (cfg : Config.t) : ChessModel :=
  {| config := cfg; model := None; digest := None |}.

(** The state a method runs in: the local files (every path can be opened
    for writing), the FTP commands issued so far, and the object. *)
Record state := {
  fs : gmap string (list byte);
  ftp_log : list ftp_event;
  self : ChessModel
}.

(** The same files and FTP log seen by a newly constructed object. *)
Definition fresh_instance (s : state) (cfg : Config.t) : state :=
  {| fs := fs s; ftp_log := ftp_log s; self := ChessModel_init cfg |}.

Definition M (A : Type) : Type := state -> result A * state.

Definition ret {A} (a : A) : M A := fun s => (Return a, s).
Definition raise {A} (e : exn) : M A := fun s => (Raise e, s).
Definition bind {A B} (m : M A) (k : A -> M B) : M B :=
  fun s => match m s with
           | (Return a, s') => k a s'
           | (Raise e, s') => (Raise e, s')
           end.

(** [try: body / except: pass] *)
Definition try_except_pass (body : M unit) : M unit :=
  fun s => (Return tt, snd (body s)).

End Persistence.

Declare Scope py_scope.
Delimit Scope py_scope with py.
Notation "x <- m ;; k" := (bind m (fun x => k))
  (at level 100, m at next level, right associativity) : py_scope.
Notation "m ;; k" := (bind m (fun _ => k))
  (at level 100, right associativity) : py_scope.

Local Open Scope py_scope.

(** What surrounds the process: the FTP server, and how many bytes of a text
    written through Python's buffered text file have reached the disk before
    the file is closed (at most its length; the rest is written at close). *)
Record environment := {
  ftp : ftp_server;
  flushed_early : list byte -> nat
}.

(** [pwrite]: the file's bytes after [data] is written at offset [off]; a gap
    past the end of the file reads as zeros. *)
Definition write_at (old : list byte) (off : nat) (data : list byte) : list byte :=
  take off (old ++ replicate (off - length old) x00)
  ++ data ++ drop (off + length data) old.

Section Methods.
Context `{K : Keras}.
Variable env : environment.

(** *** State access *)

Definition get_self : M ChessModel := fun s => (Return (self s), s).

Definition set_model (m : Model) : M unit :=
  fun s => (Return tt,
            {| fs := fs s; ftp_log := ftp_log s;
               self := {| config := config (self s); model := Some m;
                          digest := digest (self s) |} |}).

Definition set_digest (d : option string) : M unit :=
  fun s => (Return tt,
            {| fs := fs s; ftp_log := ftp_log s;
               self := {| config := config (self s); model := model (self s);
                          digest := d |} |}).

Definition with_fs (f : gmap string (list byte) -> gmap string (list byte)) : M unit :=
  fun s => (Return tt, {| fs := f (fs s); ftp_log := ftp_log s; self := self s |}).

Definition log_ftp (ev : ftp_event) : M unit :=
  fun s => (Return tt, {| fs := fs s; ftp_log := ftp_log s ++ [ev]; self := self s |}).

(** *** Files *)

(** [os.path.exists(p)] *)
Definition os_path_exists (p : string) : M bool :=
  fun s => (Return (match fs s !! p with Some _ => true | None => false end), s).

(** [open(p, 'wb')] and [open(p, 'wt')]: the file is created or truncated. *)
Definition open_w (p : string) : M string :=
  with_fs (fun m => <[p := []]> m) ;; ret p.

(** Writing [data] at offset [off] of an open file. *)
Definition pwrite (p : string) (off : nat) (data : list byte) : M unit :=
  with_fs (fun m => <[p := write_at (default [] (m !! p)) off data]> m).

(** [open(p, 'rb').read()] and [open(p, 'rt')]: the whole file. *)
Definition read_file (p : string) : M (list byte) :=
  fun s => match fs s !! p with
           | Some data => (Return data, s)
           | None => (Raise FileNotFoundError, s)
           end.

(** *** ftplib *)

(** [ftplib.FTP(host, user, passwd)]: connect and log in. *)
Definition FTP (host user passwd : string) : M unit :=
  log_ftp (EvConnect host user passwd) ;;
  if ftp_login (ftp env) host user passwd then ret tt else raise FtpError.

Definition ftp_cwd (dir : string) : M unit :=
  log_ftp (EvCwd dir) ;;
  if ftp_cwd_ok (ftp env) dir then ret tt else raise FtpError.

(** [retrbinary(cmd, callback)]: the callback receives what arrives before
    the transfer ends or breaks. *)
Definition retrbinary (cmd : string) (callback : list byte -> M unit) : M unit :=
  log_ftp (EvRetr cmd) ;;
  callback (fst (ftp_retr (ftp env) cmd)) ;;
  if snd (ftp_retr (ftp env) cmd) then ret tt else raise FtpError.

Definition storbinary (cmd : string) (data : list byte) : M unit :=
  log_ftp (EvStor cmd data) ;;
  if ftp_stor (ftp env) cmd data then ret tt else raise FtpError.

Definition ftp_quit : M unit :=
  log_ftp EvQuit ;;
  if ftp_quit_ok (ftp env) then ret tt else raise FtpError.

(** *** ChessModel.fetch_digest *)

Definition fetch_digest (weight_path : string) : M (option string) :=
  e <- os_path_exists weight_path ;;
  if e : bool then
    data <- read_file weight_path ;;
    let m := Sha256.new in
    let m := Sha256.update m data in
    ret (Some (Sha256.hexdigest m))
  else ret None.

(** *** ChessModel.load *)

(** Whether the remote copy is used: [mc.distributed and config_path ==
    resources.model_best_config_path]. *)
Definition uses_server (cfg : Config.t) (config_path : string) : bool :=
  distributed (Config.model cfg)
  && bool_decide (config_path = model_best_config_path (Config.resource cfg)).

(** The body of the [try] in [load]. *)
Definition load_from_server (cfg : Config.t) (config_path weight_path : string) : M unit :=
  let resources := Config.resource cfg in
  FTP (model_best_distributed_ftp_server resources)
      (model_best_distributed_ftp_user resources)
      (model_best_distributed_ftp_password resources) ;;
  ftp_cwd (model_best_distributed_ftp_remote_path resources) ;;
  f <- open_w config_path ;;
  retrbinary "RETR model_best_config.json" (pwrite f 0) ;;
  f <- open_w weight_path ;;
  retrbinary "RETR model_best_weight.h5" (pwrite f 0) ;;
  ftp_quit.

(** The [if os.path.exists(...) and os.path.exists(...)] part of [load]. *)
Definition load_local (config_path weight_path : string) : M bool :=
  c <- os_path_exists config_path ;;
  w <- (if c : bool then os_path_exists weight_path else ret false) ;;
  if w : bool then
    text <- read_file config_path ;;
    j <- match json_load text with
         | Some j => ret j
         | None => raise JSONDecodeError
         end ;;
    m <- match Model_from_config j with
         | Some m => ret m
         | None => raise ConfigError
         end ;;
    set_model m ;;
    data <- read_file weight_path ;;
    m <- match load_weights m data with
         | Some m => ret m
         | None => raise WeightsError
         end ;;
    set_model m ;;
    set_model (make_predict_function m) ;;
    d <- fetch_digest weight_path ;;
    set_digest d ;;
    ret true
  else ret false.

(** The [if mc.distributed and ...: try: ... except: pass] part of [load]. *)
Definition sync_from_server (config_path weight_path : string) : M unit :=
  this <- get_self ;;
  if uses_server (config this) config_path
  then try_except_pass (load_from_server (config this) config_path weight_path)
  else ret tt.

Definition load (config_path weight_path : string) : M bool :=
  sync_from_server config_path weight_path ;;
  load_local config_path weight_path.

(** *** ChessModel.save *)

(** The body of the [try] in [save]. *)
Definition save_to_server (cfg : Config.t) (config_path weight_path : string) : M unit :=
  let resources := Config.resource cfg in
  FTP (model_best_distributed_ftp_server resources)
      (model_best_distributed_ftp_user resources)
      (model_best_distributed_ftp_password resources) ;;
  ftp_cwd (model_best_distributed_ftp_remote_path resources) ;;
  fh <- read_file config_path ;;
  storbinary "STOR model_best_config.json" fh ;;
  fh <- read_file weight_path ;;
  storbinary "STOR model_best_weight.h5" fh ;;
  ftp_quit.

(** The [with open(config_path, "wt") as f] block of [save]: the weights are
    written while [f] is still open, and leaving the block closes [f]. *)
Definition save_local (config_path weight_path : string) : M unit :=
  f <- open_w config_path ;;
  this <- get_self ;;
  match model this with
  | None => raise AttributeError
  | Some m =>
      let text := get_config_json m in
      let n := Nat.min (flushed_early env text) (length text) in
      pwrite f 0 (take n text) ;;
      with_fs (fun files => <[weight_path := save_weights m]> files) ;;
      pwrite f n (drop n text)
  end.

(** The [if mc.distributed and ...: try: ... except: pass] part of [save]. *)
Definition sync_to_server (config_path weight_path : string) : M unit :=
  this <- get_self ;;
  if uses_server (config this) config_path
  then try_except_pass (save_to_server (config this) config_path weight_path)
  else ret tt.

Definition save (config_path weight_path : string) : M unit :=
  save_local config_path weight_path ;;
  d <- fetch_digest weight_path ;;
  set_digest d ;;
  sync_to_server config_path weight_path.

End Methods.

(** ** ChessModel.build *)

(** Python's [str] on an [int], and [range(n)]. *)
Definition str (n : Z) : string := NilZero.string_of_int (Z.to_int n).

Definition range (n : Z) : list Z := List.map Z.of_nat (List.seq 0 (Z.to_nat n)).

(** [ChessModel._build_residual_block] *)
Definition _build_residual_block (mc : ModelConfig) (x : tensor) (index : Z) : tensor :=
  let in_x := x in
  let res_name := ("res" ++ str index)%string in
  let x := Call (Conv2D (cnn_filter_num mc) (KInt (cnn_filter_size mc)) pad_same
                        "channels_first" false (Some (l2_reg mc))
                        (Some (res_name ++ "_conv1-" ++ str (cnn_filter_size mc)
                                        ++ "-" ++ str (cnn_filter_num mc))%string)) [x] in
  let x := Call (BatchNormalization 1 (Some (res_name ++ "_batchnorm1")%string)) [x] in
  let x := Call (Activation act_relu (Some (res_name ++ "_relu1")%string)) [x] in
  let x := Call (Conv2D (cnn_filter_num mc) (KInt (cnn_filter_size mc)) pad_same
                        "channels_first" false (Some (l2_reg mc))
                        (Some (res_name ++ "_conv2-" ++ str (cnn_filter_size mc)
                                        ++ "-" ++ str (cnn_filter_num mc))%string)) [x] in
  let x := Call (BatchNormalization 1 (Some ("res" ++ str index ++ "_batchnorm2")%string)) [x] in
  let x := Call (Add (Some (res_name ++ "_add")%string)) [in_x; x] in
  let x := Call (Activation act_relu (Some (res_name ++ "_relu2")%string)) [x] in
  x.

(** The arguments [build] passes to [Model(...)]. *)
Record network := {
  net_input : tensor;
  policy_out : tensor;
  value_out : tensor;
  net_name : string
}.

(** The stem and the residual tower of [ChessModel.build]. *)
Definition res_out (cfg : Config.t) (in_x : tensor) : tensor :=
  let mc := Config.model cfg in
  let x := in_x in
  let x := Call (Conv2D (cnn_filter_num mc) (KInt (cnn_first_filter_size mc)) pad_same
                        "channels_first" false (Some (l2_reg mc))
                        (Some ("input_conv-" ++ str (cnn_first_filter_size mc)
                                             ++ "-" ++ str (cnn_filter_num mc))%string)) [x] in
  let x := Call (BatchNormalization 1 (Some "input_batchnorm")) [x] in
  let x := Call (Activation act_relu (Some "input_relu")) [x] in
  List.fold_left (fun x i => _build_residual_block mc x (i + 1))
                 (range (res_layer_num mc)) x.

(** The graph [ChessModel.build] wires. *)
Definition build_network (cfg : Config.t) : network :=
  let mc := Config.model cfg in
  let in_x := Input [18; 8; 8] in
  let res_out := res_out cfg in_x in
  (* for policy output *)
  let x := Call (Conv2D 2 (KInt 1) pad_valid "channels_first" false (Some (l2_reg mc))
                        (Some "policy_conv-1-2")) [res_out] in
  let x := Call (BatchNormalization 1 (Some "policy_batchnorm")) [x] in
  let x := Call (Activation act_relu (Some "policy_relu")) [x] in
  let x := Call (Flatten (Some "policy_flatten")) [x] in
  let policy_out := Call (Dense (Config.n_labels cfg) (Some (l2_reg mc)) act_softmax
                                (Some "policy_out")) [x] in
  (* for value output *)
  let x := Call (Conv2D 4 (KInt 1) pad_valid "channels_first" false (Some (l2_reg mc))
                        (Some "value_conv-1-4")) [res_out] in
  let x := Call (BatchNormalization 1 (Some "value_batchnorm")) [x] in
  let x := Call (Activation act_relu (Some "value_relu")) [x] in
  let x := Call (Flatten (Some "value_flatten")) [x] in
  let x := Call (Dense (value_fc_size mc) (Some (l2_reg mc)) act_relu
                       (Some "value_dense")) [x] in
  let value_out := Call (Dense 1 (Some (l2_reg mc)) act_tanh (Some "value_out")) [x] in
  {| net_input := in_x; policy_out := policy_out; value_out := value_out;
     net_name := "chess_model" |}.

(** [ChessModel.build]: the graph is stored in [self.model]. *)
Definition build `{K : Keras} : M unit :=
  this <- get_self ;;
  let net := build_network (config this) in
  set_model (Model_init (net_input net) [policy_out net; value_out net] (net_name net)).

(** ** BetterChessModel *)

(** What a Python expression evaluates to here: a layer object, which can be
    called on tensors, or a tensor, which cannot. *)
Inductive pyobj :=
| OLayer (l : layer)
| OTensor (t : tensor).

Definition py_call (f : pyobj) (args : list tensor) : result tensor :=
  match f with
  | OLayer l => Return (Call l args)
  | OTensor _ => Raise TypeError
  end.

Definition result_bind {A B} (m : result A) (k : A -> result B) : result B :=
  match m with
  | Return a => k a
  | Raise e => Raise e
  end.

Declare Scope result_scope.
Delimit Scope result_scope with res.
Notation "x <- m ;; k" := (result_bind m (fun x => k))
  (at level 100, m at next level, right associativity) : result_scope.

Module Better.

(** The attributes [BetterChessModel.__init__] adds. *)
Record attrs := {
  data_format : string;
  blocks_count : Z;
  channels : Z;
  conv_along_axis_channels : Z;
  conv15_channels : Z;
  conv5_channels : Z;
  leaky_alpha : Q
}.

(** [BetterChessModel.__init__] *)
Definition init : attrs :=
  let data_format := "channels_first" in
  let blocks_count := 6 in
  let channels := 128 in
  let conv_along_axis_channels := 16 in
  let conv15_channels := 4 in
  let conv5_channels := channels - conv_along_axis_channels * 2 - conv15_channels in
  {| data_format := data_format; blocks_count := blocks_count; channels := channels;
     conv_along_axis_channels := conv_along_axis_channels;
     conv15_channels := conv15_channels; conv5_channels := conv5_channels;
     leaky_alpha := 3 # 10 |}.

Section Builder.
Variable this : attrs.
Local Open Scope result_scope.

Definition pointwise_conv (layer : tensor) (channels : Z) : result tensor :=
  layer <- py_call (OLayer (Conv2D channels (KInt 1) pad_same (data_format this)
                                   false None None)) [layer] ;;
  layer <- py_call (OLayer (BatchNormalization 1 None)) [layer] ;;
  py_call (OLayer (LeakyReLU (leaky_alpha this))) [layer].

Definition separable_conv (layer : tensor) (channels : Z) (kernel : kernel) : result tensor :=
  layer <- py_call (OLayer (SeparableConv2D channels kernel pad_same (data_format this)
                                            false)) [layer] ;;
  layer <- py_call (OLayer (BatchNormalization 1 None)) [layer] ;;
  py_call (OLayer (LeakyReLU (leaky_alpha this))) [layer].

(** Both lines call what the helper returned. *)
Definition pointwise_and_separable (layer : tensor) (channels : Z) (kernel : kernel)
  : result tensor :=
  f <- pointwise_conv layer channels ;;
  layer <- py_call (OTensor f) [layer] ;;
  g <- separable_conv layer channels kernel ;;
  py_call (OTensor g) [layer].

Definition custom_layer (previous : tensor) : result tensor :=
  conv5 <- separable_conv previous (conv5_channels this) (KPair 5 5) ;;
  conv_along1 <- pointwise_and_separable previous (conv_along_axis_channels this)
                   (KPair 1 15) ;;
  conv_along2 <- pointwise_and_separable previous (conv_along_axis_channels this)
                   (KPair 15 1) ;;
  conv15 <- pointwise_and_separable previous (conv15_channels this) (KPair 15 15) ;;
  py_call (OLayer (Concatenate 1)) [conv5; conv15; conv_along1; conv_along2].

(** [for i in range(self.blocks_count): x = self.custom_layer(x)] *)
Fixpoint custom_layers (indices : list Z) (x : tensor) : result tensor :=
  match indices with
  | [] => Return x
  | _ :: rest => x <- custom_layer x ;; custom_layers rest x
  end.

(** The graph [BetterChessModel.build] wires, if it gets that far. *)
Definition build_network (cfg : Config.t) : result network :=
  let mc := Config.model cfg in
  let in_x := Input [18; 8; 8] in
  x <- pointwise_conv in_x (channels this) ;;
  x <- custom_layers (range (blocks_count this)) x ;;
  let res_out := x in
  (* for policy output *)
  x <- pointwise_conv res_out 2 ;;
  x <- py_call (OLayer (Flatten (Some "policy_flatten"))) [x] ;;
  policy_out <- py_call (OLayer (Dense (Config.n_labels cfg) None act_softmax
                                       (Some "policy_out"))) [x] ;;
  (* for value output *)
  x <- pointwise_conv res_out 4 ;;
  x <- py_call (OLayer (Flatten (Some "value_flatten"))) [x] ;;
  x <- py_call (OLayer (Dense (value_fc_size mc) None act_linear (Some "value_dense"))) [x] ;;
  x <- py_call (OLayer (LeakyReLU (leaky_alpha this))) [x] ;;
  value_out <- py_call (OLayer (Dense 1 None act_tanh (Some "value_out"))) [x] ;;
  Return {| net_input := in_x; policy_out := policy_out; value_out := value_out;
            net_name := "chess_model" |}.

End Builder.

(** [BetterChessModel.build]: [self.model] is assigned only if the graph
    could be wired. *)
Definition build `{K : Keras} (this : attrs) : M unit :=
  me <- get_self ;;
  match build_network this (config me) with
  | Return net =>
      set_model (Model_init (net_input net) [policy_out net; value_out net] (net_name net))
  | Raise e => raise e
  end.

End Better.

(** ** Shapes

    The output shape Keras infers for a layer call (without the batch axis,
    channels first); [None] where Keras rejects the call. *)

Definition kernel_hw (k : kernel) : Z * Z :=
  match k with
  | KInt n => (n, n)
  | KPair kh kw => (kh, kw)
  end.

Definition conv_dim (pad : padding) (size k : Z) : Z :=
  match pad with
  | pad_same => size
  | pad_valid => size - k + 1
  end.

Definition conv_shape (filters : Z) (k : kernel) (pad : padding) (data_format : string)
    (ins : list (option (list Z))) : option (list Z) :=
  match ins with
  | [Some [c; h; w]] =>
      let '(kh, kw) := kernel_hw k in
      let oh := conv_dim pad h kh in
      let ow := conv_dim pad w kw in
      if bool_decide (data_format = "channels_first")
         && (0 <? filters) && (0 <? kh) && (0 <? kw) && (0 <? c) && (0 <? oh) && (0 <? ow)
      then Some [filters; oh; ow]
      else None
  | _ => None
  end.

Definition product (dims : list Z) : Z := List.fold_right Z.mul 1 dims.

(** All the shapes of a merge, when every input has one. *)
Fixpoint all_shapes (ins : list (option (list Z))) : option (list (list Z)) :=
  match ins with
  | [] => Some []
  | Some s :: rest => option_map (cons s) (all_shapes rest)
  | None :: _ => None
  end.

Definition add_shape (ins : list (option (list Z))) : option (list Z) :=
  match all_shapes ins with
  | Some (s :: rest) =>
      if forallb (fun s' => bool_decide (s' = s)) rest then Some s else None
  | _ => None
  end.

(** Concatenation along the channel axis. *)
Definition concat_shape (axis : Z) (ins : list (option (list Z))) : option (list Z) :=
  match all_shapes ins with
  | Some ((c :: tl) :: rest) =>
      if (axis =? 1) && forallb (fun s' => bool_decide (List.tl s' = tl)) rest
      then Some (List.fold_left (fun acc s' => acc + List.hd 0 s') rest c :: tl)
      else None
  | _ => None
  end.

Definition layer_shape (l : layer) (ins : list (option (list Z))) : option (list Z) :=
  match l with
  | Conv2D filters k pad df _ _ _ => conv_shape filters k pad df ins
  | SeparableConv2D filters k pad df _ => conv_shape filters k pad df ins
  | BatchNormalization _ _ | Activation _ _ | LeakyReLU _ =>
      match ins with
      | [Some s] => Some s
      | _ => None
      end
  | Flatten _ =>
      match ins with
      | [Some s] => Some [product s]
      | _ => None
      end
  | Dense units _ _ _ =>
      match ins with
      | [Some [n]] => if (0 <? units) && (0 <? n) then Some [units] else None
      | _ => None
      end
  | Add _ => add_shape ins
  | Concatenate axis => concat_shape axis ins
  end.

Fixpoint shape_of (t : tensor) : option (list Z) :=
  match t with
  | Input shape => Some shape
  | Call l args => layer_shape l (List.map shape_of args)
  end.

(** ** float32

    Keras holds tensors in float32.  [Float32] is IEEE 754 binary32 with
    round-to-nearest-even, as the standard library specifies it for a
    precision of 24 bits and exponents below 128. *)

Module Float32.

Definition prec : Z := 24.
Definition emax : Z := 128.

Definition mul (x y : spec_float) : spec_float := SFmul prec emax x y.






End Float32.



(** ** Reading back

    What Keras makes of its own serialisation of [m]: the dumped config
    parsed and rebuilt, the saved weights loaded into it, the predict
    function made, in the order [save] and [load] call these. *)
Definition reread `{K : Keras} (m : Model) : result Model :=
  match json_load (get_config_json m) with
  | None => Raise JSONDecodeError
  | Some j =>
      match Model_from_config j with
      | None => Raise ConfigError
      | Some m0 =>
          match load_weights m0 (save_weights m) with
          | None => Raise WeightsError
          | Some m1 => Return (make_predict_function m1)
          end
      end
  end.

(** ** ChessModel.get_pipes

    [ChessModelAPI] lives in another module: its constructor, [start] and
    [create_pipe] are taken as given, and the calls made to it are recorded. *)





Section GetPipes.
Context `{S : Serving}.





End GetPipes.

(** ** Lower-case hexadecimal digits *)

Definition is_lower_hex (c : ascii) : bool :=
  let n := N_of_ascii c in
  ((48 <=? n) && (n <=? 57) || (97 <=? n) && (n <=? 102))%N.

(** ** A stand-in Keras

    A small back end on which [load] and [save] run on concrete files: an
    architecture is written between braces, a weight file starts with the
    HDF5 signature.  As with [json.load], the empty text is rejected. *)

Module Stub.

Record net := { arch : list byte; weights : list byte }.

Definition hdf5_magic : list byte := [x89; "H"; "D"; "F"; x0d; x0a; x1a; x0a]%byte.

Definition parse_json (text : list byte) : option (list byte) :=
  match text with
  | "{"%byte :: rest =>
      match List.rev rest with
      | "}"%byte :: body => Some (List.rev body)
      | _ => None
      end
  | _ => None
  end.

Definition read_weights (m : net) (data : list byte) : option net :=
  if bool_decide (take 8 data = hdf5_magic)
  then Some {| arch := arch m; weights := drop 8 data |}
  else None.

#[export] Instance keras : Keras := {|
  Model := net;
  Json := list byte;
  Model_init := fun _ _ name => {| arch := list_byte_of_string name; weights := [] |};
  get_config_json := fun m => "{"%byte :: arch m ++ ["}"%byte];
  json_load := parse_json;
  Model_from_config := fun j => Some {| arch := j; weights := [] |};
  save_weights := fun m => hdf5_magic ++ weights m;
  load_weights := read_weights;
  make_predict_function := fun m => m;
  Observation := list byte;
  Prediction := list byte;
  predict := fun m x => arch m ++ weights m ++ x
|}.

(** A server that cannot be reached. *)
Definition offline : ftp_server :=
  {| ftp_login := fun _ _ _ => false;
     ftp_cwd_ok := fun _ => false;
     ftp_retr := fun _ => ([], false);
     ftp_stor := fun _ _ => false;
     ftp_quit_ok := false |}.

(** A server that accepts the session but holds no file yet: every [RETR]
    fails before any byte arrives. *)
Definition empty_server : ftp_server :=
  {| ftp_login := fun _ _ _ => true;
     ftp_cwd_ok := fun _ => true;
     ftp_retr := fun _ => ([], false);
     ftp_stor := fun _ _ => true;
     ftp_quit_ok := true |}.

(** A server that holds the pair another worker pushed. *)
Definition remote_config : list byte := list_byte_of_string "{other}".
Definition remote_weight : list byte := hdf5_magic ++ [x07]%byte.

Definition full_server : ftp_server :=
  {| ftp_login := fun _ _ _ => true;
     ftp_cwd_ok := fun _ => true;
     ftp_retr := fun cmd =>
       if bool_decide (cmd = "RETR model_best_config.json") then (remote_config, true)
       else (remote_weight, true);
     ftp_stor := fun _ _ => true;
     ftp_quit_ok := true |}.

Definition env_of (srv : ftp_server) : environment :=
  {| ftp := srv; flushed_early := fun _ => 0%nat |}.

Definition resources : ResourceConfig :=
  {| model_best_config_path := "data/model/model_best_config.json";
     model_best_weight_path := "data/model/model_best_weight.h5";
     model_best_distributed_ftp_server := "alpha-chess-zero.mygamesonline.org";
     model_best_distributed_ftp_user := "user";
     model_best_distributed_ftp_password := "password";
     model_best_distributed_ftp_remote_path := "/alpha-chess-zero.mygamesonline.org/" |}.

Definition mconfig (dist : bool) : ModelConfig :=
  {| cnn_filter_num := 256; cnn_first_filter_size := 5; cnn_filter_size := 3;
     res_layer_num := 7; l2_reg := 1 # 10000; value_fc_size := 256;
     distributed := dist |}.

Definition cfg (dist : bool) : Config.t :=
  {| Config.model := mconfig dist; Config.resource := resources; Config.n_labels := 1968 |}.

Definition best_c : string := "data/model/model_best_config.json".
Definition best_w : string := "data/model/model_best_weight.h5".

Definition a_model : net := {| arch := list_byte_of_string "chess_model"; weights := [x01; x02]%byte |}.

(** The two files [a_model] is saved as, and a directory holding them. *)
Definition a_config : list byte := get_config_json a_model.
Definition a_weight : list byte := save_weights a_model.

Definition good_files : gmap string (list byte) :=
  <[best_w := a_weight]> (<[best_c := a_config]> ∅).

Definition start (files : gmap string (list byte)) (this : ChessModel) : state :=
  {| fs := files; ftp_log := []; self := this |}.

(** An object whose graph has been built, and a freshly constructed one. *)
Definition built (dist : bool) : ChessModel :=
  {| config := cfg dist; model := Some a_model; digest := None |}.

Definition fresh (dist : bool) : ChessModel := ChessModel_init (cfg dist).

End Stub.

Example str_of_int : str 256 = "256" /\ str 0 = "0" /\ str (-5) = "-5".
Proof. repeat split. Qed.

Example range_of_int : range 3 = [0; 1; 2] /\ range 0 = [] /\ range (-2) = [].
Proof. repeat split. Qed.

(** The first layer of the second residual block, with 256 filters of size 3. *)
Example residual_block_names :
  exists x rest,
    _build_residual_block (Stub.mconfig false) (Input [256; 8; 8]) 2
    = Call (Activation act_relu (Some "res2_relu2"))
        [Call (Add (Some "res2_add")) [Input [256; 8; 8]; x]]
    /\ x = Call (BatchNormalization 1 (Some "res2_batchnorm2"))
             [Call (Conv2D 256 (KInt 3) pad_same "channels_first" false (Some (1 # 10000))
                           (Some "res2_conv2-3-256")) rest].
Proof. do 2 eexists. split; reflexivity. Qed.

Example sha256_constants :
  List.nth 0 Sha256.K 0 = 0x428a2f98 /\ List.nth 63 Sha256.K 0 = 0xc67178f2
  /\ length Sha256.K = 64%nat
  /\ List.nth 0 Sha256.H0 0 = 0x6a09e667 /\ List.nth 7 Sha256.H0 0 = 0x5be0cd19.
Proof. repeat split. Qed.

Example sha256_empty :
  Sha256.hexdigest Sha256.new
  = "e3b0c44298fc1c149afbf4c8996fb92427ae41e4649b934ca495991b7852b855".
Proof. vm_compute. reflexivity. Qed.

Example sha256_abc :
  Sha256.hexdigest (Sha256.update Sha256.new (list_byte_of_string "abc"))
  = "ba7816bf8f01cfea414140de5dae2223b00361a396177a9cb410ff61f20015ad".
Proof. vm_compute. reflexivity. Qed.

Example sha256_two_blocks :
  Sha256.hexdigest
    (Sha256.update Sha256.new
       (list_byte_of_string "abcdbcdecdefdefgefghfghighijhijkijkljklmklmnlmnomnopnopq"))
  = "248d6a61d20638b8e5c026930c3e6039a33ce45964ff2167f6ecedd419db06c1".
Proof. vm_compute. reflexivity. Qed.


(** * Properties *)

(** Case analysis on every [match] scrutinee left in the goal. *)
Ltac case_matches :=
  repeat match goal with
         | |- context [match ?x with _ => _ end] => destruct x
         end.

(** ** Files and digests *)

Lemma write_at_start (data : list byte) : write_at [] 0 data = data.
Proof.
  unfold write_at. simpl. rewrite drop_nil. apply app_nil_r.
Qed.

Lemma write_at_rest (text : list byte) (n : nat) :
  (n <= length text)%nat -> write_at (take n text) n (drop n text) = text.
Proof.
  intros Hn. unfold write_at.
  rewrite length_take, Nat.min_l by exact Hn.
  rewrite Nat.sub_diag. simpl. rewrite app_nil_r.
  rewrite take_take, Nat.min_id.
  rewrite (drop_ge (take n text)) by (rewrite length_take; lia).
  rewrite app_nil_r. apply take_drop.
Qed.

Section PersistenceFacts.
Context `{K : Keras}.
Variable env : environment.

Lemma fetch_digest_eq (p : string) (s : state) :
  fetch_digest p s = (Return (sha256_of <$> fs s !! p), s).
Proof.
  unfold fetch_digest, bind, os_path_exists, read_file, ret.
  destruct (fs s !! p) as [data|] eqn:E; simpl; rewrite ?E; reflexivity.
Qed.

Lemma load_local_eq (c w : string) (s : state) :
  load_local c w s =
  match fs s !! c, fs s !! w with
  | Some text, Some data =>
      match json_load text with
      | None => (Raise JSONDecodeError, s)
      | Some j =>
          match Model_from_config j with
          | None => (Raise ConfigError, s)
          | Some m0 =>
              match load_weights m0 data with
              | None =>
                  (Raise WeightsError,
                   {| fs := fs s; ftp_log := ftp_log s;
                      self := {| config := config (self s); model := Some m0;
                                 digest := digest (self s) |} |})
              | Some m1 =>
                  (Return true,
                   {| fs := fs s; ftp_log := ftp_log s;
                      self := {| config := config (self s);
                                 model := Some (make_predict_function m1);
                                 digest := Some (sha256_of data) |} |})
              end
          end
      end
  | _, _ => (Return false, s)
  end.
Proof.
  unfold load_local, bind, os_path_exists, read_file, ret, raise.
  destruct (fs s !! c) as [text|] eqn:Ec; simpl; [|reflexivity].
  destruct (fs s !! w) as [data|] eqn:Ew; simpl; [|reflexivity].
  rewrite Ec.
  destruct (json_load text) as [j|]; simpl; [|reflexivity].
  destruct (Model_from_config j) as [m0|]; simpl; [|reflexivity].
  rewrite Ew.
  destruct (load_weights m0 data) as [m1|]; simpl; [|reflexivity].
  rewrite fetch_digest_eq. simpl. rewrite Ew. reflexivity.
Qed.

(** The server part of [load], by how far the session gets. *)
Lemma load_from_server_eq (cfg : Config.t) (c w : string) (s : state) :
  let r := Config.resource cfg in
  let host := model_best_distributed_ftp_server r in
  let user := model_best_distributed_ftp_user r in
  let passwd := model_best_distributed_ftp_password r in
  let dir := model_best_distributed_ftp_remote_path r in
  let got_c := ftp_retr (ftp env) "RETR model_best_config.json" in
  let got_w := ftp_retr (ftp env) "RETR model_best_weight.h5" in
  let st files evs := {| fs := files; ftp_log := ftp_log s ++ evs; self := self s |} in
  load_from_server env cfg c w s =
  if negb (ftp_login (ftp env) host user passwd) then
    (Raise FtpError, st (fs s) [EvConnect host user passwd])
  else if negb (ftp_cwd_ok (ftp env) dir) then
    (Raise FtpError, st (fs s) [EvConnect host user passwd; EvCwd dir])
  else if negb (snd got_c) then
    (Raise FtpError,
     st (<[c := fst got_c]> (fs s))
        [EvConnect host user passwd; EvCwd dir; EvRetr "RETR model_best_config.json"])
  else if negb (snd got_w) then
    (Raise FtpError,
     st (<[w := fst got_w]> (<[c := fst got_c]> (fs s)))
        [EvConnect host user passwd; EvCwd dir; EvRetr "RETR model_best_config.json";
         EvRetr "RETR model_best_weight.h5"])
  else
    (if ftp_quit_ok (ftp env) then Return tt else Raise FtpError,
     st (<[w := fst got_w]> (<[c := fst got_c]> (fs s)))
        [EvConnect host user passwd; EvCwd dir; EvRetr "RETR model_best_config.json";
         EvRetr "RETR model_best_weight.h5"; EvQuit]).
Proof.
  intros r host user passwd dir got_c got_w st.
  cbv [load_from_server bind FTP ftp_cwd retrbinary ftp_quit open_w pwrite
         with_fs log_ftp ret raise].
  fold r host user passwd dir got_c got_w. simpl.
  destruct (ftp_login (ftp env) host user passwd); simpl; [|reflexivity].
  destruct (ftp_cwd_ok (ftp env) dir); simpl; [|unfold st; rewrite <- app_assoc; reflexivity].
  rewrite !lookup_insert_eq. simpl. rewrite !write_at_start, !insert_insert_eq.
  destruct (snd got_c); simpl;
    [|unfold st; rewrite <- !app_assoc; reflexivity].
  rewrite !lookup_insert_eq. simpl. rewrite !write_at_start, !insert_insert_eq.
  destruct (snd got_w); simpl;
    [|unfold st; rewrite <- !app_assoc; reflexivity].
  destruct (ftp_quit_ok (ftp env)); unfold st; rewrite <- !app_assoc; reflexivity.
Qed.

(** [load_from_server] issues a connect first and touches only the files. *)
Lemma load_from_server_frame (cfg : Config.t) (c w : string) (s : state) :
  let r := Config.resource cfg in
  let s' := snd (load_from_server env cfg c w s) in
  self s' = self s
  /\ exists rest,
       ftp_log s' = ftp_log s ++ EvConnect (model_best_distributed_ftp_server r)
                                           (model_best_distributed_ftp_user r)
                                           (model_best_distributed_ftp_password r) :: rest.
Proof.
  intros r s'. unfold s'. rewrite load_from_server_eq. fold r.
  repeat match goal with |- context [if ?b then _ else _] => destruct b end;
    simpl; (split; [reflexivity | eexists; reflexivity]).
Qed.

(** [save_to_server] issues a connect first and changes neither the local
    files nor the object. *)
Lemma save_to_server_frame (cfg : Config.t) (c w : string) (s : state) :
  let r := Config.resource cfg in
  let s' := snd (save_to_server env cfg c w s) in
  fs s' = fs s /\ self s' = self s
  /\ exists rest,
       ftp_log s' = ftp_log s ++ EvConnect (model_best_distributed_ftp_server r)
                                           (model_best_distributed_ftp_user r)
                                           (model_best_distributed_ftp_password r) :: rest.
Proof.
  intros r s'. unfold s'.
  cbv [save_to_server bind FTP ftp_cwd storbinary ftp_quit read_file
         with_fs log_ftp ret raise].
  fold r. simpl.
  repeat lazymatch goal with
    | |- context [if ?b then _ else _] => destruct b; simpl
    | |- context [match ?m !! ?k with _ => _ end] => destruct (m !! k); simpl
    end;
    (split; [reflexivity | split; [reflexivity |]]);
    rewrite <- ?app_assoc; simpl; eexists; reflexivity.
Qed.

Lemma save_local_eq (c w : string) (s : state) :
  save_local env c w s =
  match model (self s) with
  | None =>
      (Raise AttributeError,
       {| fs := <[c := []]> (fs s); ftp_log := ftp_log s; self := self s |})
  | Some m =>
      let text := get_config_json m in
      let n := Nat.min (flushed_early env text) (length text) in
      let files := <[w := save_weights m]> (<[c := take n text]> (fs s)) in
      (Return tt,
       {| fs := <[c := write_at (default [] (files !! c)) n (drop n text)]> files;
          ftp_log := ftp_log s; self := self s |})
  end.
Proof.
  cbv [save_local bind open_w pwrite with_fs get_self ret raise]. simpl.
  destruct (model (self s)) as [m|]; [|reflexivity].
  simpl. rewrite lookup_insert_eq. simpl.
  rewrite write_at_start, insert_insert_eq. reflexivity.
Qed.

(** With two different paths each file ends up holding its own text. *)
Lemma save_local_distinct (c w : string) (s : state) (m : Model) :
  model (self s) = Some m -> c <> w ->
  save_local env c w s =
  (Return tt,
   {| fs := <[w := save_weights m]> (<[c := get_config_json m]> (fs s));
      ftp_log := ftp_log s; self := self s |}).
Proof.
  intros Hm Hcw. rewrite save_local_eq, Hm. cbv zeta.
  set (text := get_config_json m).
  set (n := Nat.min (flushed_early env text) (length text)).
  rewrite lookup_insert_ne by congruence.
  rewrite lookup_insert_eq. simpl.
  rewrite write_at_rest by (unfold n; lia).
  rewrite (insert_insert_ne _ c w) by congruence.
  rewrite insert_insert_eq. reflexivity.
Qed.

End PersistenceFacts.

(** ** The digest *)

Lemma compress_length (h block : list Z) :
  length h = 8%nat -> length (Sha256.compress h block) = 8%nat.
Proof.
  intros Hh. unfold Sha256.compress.
  rewrite length_map, List.length_combine, Hh. reflexivity.
Qed.

Lemma blocks_length (fuel : nat) (h bs : list Z) :
  length h = 8%nat -> length (Sha256.blocks fuel h bs) = 8%nat.
Proof.
  revert h bs. induction fuel as [|fuel IH]; intros h bs Hh; simpl.
  - exact Hh.
  - destruct bs as [|b bs']; [exact Hh|].
    apply IH, compress_length, Hh.
Qed.

Lemma hex_of_bytes_length (bs : list Z) :
  String.length (Sha256.hex_of_bytes bs) = (2 * length bs)%nat.
Proof.
  induction bs as [|b bs IH]; simpl; [reflexivity|]. rewrite IH. lia.
Qed.

Lemma concat_be_bytes_length (ws : list Z) :
  length (List.concat (List.map (Sha256.be_bytes 4) ws)) = (4 * length ws)%nat.
Proof.
  induction ws as [|x ws IH]; [reflexivity|].
  cbn [List.map List.concat]. rewrite length_app, IH. simpl. lia.
Qed.

(** A digest is always 64 hexadecimal characters long. *)
Lemma sha256_of_length (data : list byte) : String.length (sha256_of data) = 64%nat.
Proof.
  unfold sha256_of, Sha256.hexdigest, Sha256.digest_bytes, Sha256.digest_words.
  rewrite hex_of_bytes_length, concat_be_bytes_length, blocks_length; reflexivity.
Qed.

(** C3: [fetch_digest(weight_path)] returns the SHA-256 hex digest of the
    file's bytes when the file exists and [None], without raising, when it
    does not; it changes nothing, so a second call returns the same string,
    as does any call that finds the same bytes at the path. *)
Theorem fetch_digest_sha256 `{K : Keras} (weight_path : string) (s : state) :
  fetch_digest weight_path s
  = (Return (match fs s !! weight_path with
             | Some data => Some (Sha256.hexdigest (Sha256.update Sha256.new data))
             | None => None
             end), s)
  /\ fetch_digest weight_path (snd (fetch_digest weight_path s))
     = fetch_digest weight_path s
  /\ forall s2 : state,
       fs s2 !! weight_path = fs s !! weight_path ->
       fst (fetch_digest weight_path s2) = fst (fetch_digest weight_path s).
Proof.
  repeat split.
  - rewrite fetch_digest_eq. destruct (fs s !! weight_path); reflexivity.
  - rewrite !fetch_digest_eq. reflexivity.
  - intros s2 Heq. rewrite !fetch_digest_eq. simpl. rewrite Heq. reflexivity.
Qed.

(** ** load *)

Section LoadFacts.
Context `{K : Keras}.
Variable env : environment.

(** The server part of [load] never raises. *)
Lemma sync_from_server_eq (c w : string) (s : state) :
  sync_from_server env c w s =
  (Return tt,
   if uses_server (config (self s)) c
   then snd (load_from_server env (config (self s)) c w s)
   else s).
Proof.
  cbv [sync_from_server bind get_self try_except_pass ret].
  destruct (uses_server (config (self s)) c); reflexivity.
Qed.

Lemma sync_from_server_self (c w : string) (s : state) :
  self (snd (sync_from_server env c w s)) = self s.
Proof.
  rewrite sync_from_server_eq. simpl.
  destruct (uses_server (config (self s)) c); [|reflexivity].
  apply (load_from_server_frame env).
Qed.

Lemma load_eq (c w : string) (s : state) :
  load env c w s = load_local c w (snd (sync_from_server env c w s)).
Proof.
  unfold load, bind. rewrite sync_from_server_eq. reflexivity.
Qed.

Lemma uses_server_iff (cfg : Config.t) (c : string) :
  uses_server cfg c = true
  <-> distributed (Config.model cfg) = true
      /\ c = model_best_config_path (Config.resource cfg).
Proof.
  unfold uses_server. rewrite andb_true_iff, bool_decide_eq_true. reflexivity.
Qed.

End LoadFacts.

(** C1 (as amended): [load] returns true exactly when, after the server part
    has run, both files exist and their contents deserialise ([json.load],
    [Model.from_config] and [load_weights] all succeed); when both exist and
    one of these fails, [load] raises.  It returns false exactly when a file
    is missing, and then it has not raised and the object ([self.model],
    [self.digest]) is as before the call. *)
Theorem load_true_iff_present_and_readable `{K : Keras}
    (env : environment) (config_path weight_path : string) (s : state) :
  let s1 := snd (sync_from_server env config_path weight_path s) in
  let r := fst (load env config_path weight_path s) in
  (r = Return true
   <-> exists text data j m0 m1,
         fs s1 !! config_path = Some text /\ fs s1 !! weight_path = Some data
         /\ json_load text = Some j /\ Model_from_config j = Some m0
         /\ load_weights m0 data = Some m1)
  /\ (r = Return false
      <-> fs s1 !! config_path = None \/ fs s1 !! weight_path = None)
  /\ (r = Return false ->
      snd (load env config_path weight_path s) = s1 /\ self s1 = self s)
  /\ (r = Return true \/ r = Return false \/ r = Raise JSONDecodeError
      \/ r = Raise ConfigError \/ r = Raise WeightsError).
Proof.
  intros s1 r. unfold r. rewrite load_eq. fold s1. rewrite load_local_eq.
  assert (Hself : self s1 = self s) by apply sync_from_server_self.
  destruct (fs s1 !! config_path) as [text|] eqn:Ec;
    [destruct (fs s1 !! weight_path) as [data|] eqn:Ew|];
    [destruct (json_load text) as [j|] eqn:Ej;
      [destruct (Model_from_config j) as [m0|] eqn:Em0;
        [destruct (load_weights m0 data) as [m1|] eqn:Em1|]|]| |];
    simpl; (split; [|split; [|split]]);
    try (split; [try discriminate | try reflexivity]);
    try discriminate; auto 6;
    try (intros [?|?]; discriminate);
    try (intros (t & d & j' & m0' & m1' & Ht & Hd & Hj & Hm0 & Hm1); congruence).
  intros _. exists text, data, j, m0, m1. auto.
Qed.

(** C1, counterexample: both files exist, the architecture file is empty;
    [load] raises instead of returning true. *)
Lemma load_present_but_unreadable :
  is_Some ((<[Stub.best_c := []]> Stub.good_files) !! Stub.best_c)
  /\ is_Some ((<[Stub.best_c := []]> Stub.good_files) !! Stub.best_w)
  /\ fst (load (Stub.env_of Stub.offline) Stub.best_c Stub.best_w
            (Stub.start (<[Stub.best_c := []]> Stub.good_files)
                        (Stub.fresh false)))
     = Raise JSONDecodeError.
Proof.
  split; [|split].
  - rewrite lookup_insert_eq. eexists; reflexivity.
  - vm_compute. eexists; reflexivity.
  - vm_compute. reflexivity.
Qed.

(** ** save *)

Section SaveFacts.
Context `{K : Keras}.
Variable env : environment.

(** The state [save] reaches once the digest is stored, before the server
    part runs. *)
Lemma save_eq (c w : string) (s : state) (m : Model) :
  model (self s) = Some m ->
  let s1 := snd (save_local env c w s) in
  let s2 := {| fs := fs s1; ftp_log := ftp_log s;
               self := {| config := config (self s); model := Some m;
                          digest := sha256_of <$> fs s1 !! w |} |} in
  save env c w s =
  (Return tt,
   if uses_server (config (self s)) c
   then snd (save_to_server env (config (self s)) c w s2)
   else s2).
Proof.
  intros Hm s1 s2. unfold save, bind.
  assert (Hs1 : save_local env c w s
                = (Return tt, {| fs := fs s1; ftp_log := ftp_log s; self := self s |})).
  { unfold s1. rewrite save_local_eq, Hm. reflexivity. }
  rewrite Hs1, fetch_digest_eq.
  cbv [set_digest sync_to_server bind get_self try_except_pass ret]. simpl.
  rewrite Hm. fold s2.
  destruct (uses_server (config (self s)) c); reflexivity.
Qed.

Lemma save_unbuilt (c w : string) (s : state) :
  model (self s) = None ->
  save env c w s
  = (Raise AttributeError,
     {| fs := <[c := []]> (fs s); ftp_log := ftp_log s; self := self s |}).
Proof.
  intros Hm. unfold save, bind. rewrite save_local_eq, Hm. reflexivity.
Qed.

End SaveFacts.

(** ** When the server is used *)

(** C4 (as amended): the server is used exactly when the model is marked
    distributed and the config path is the canonical best-model config path;
    the weight path is not looked at.  Then [load], and [save] on an object
    with a built graph, open an FTP session; otherwise they issue no FTP
    command at all. *)
Theorem server_used_iff_distributed_and_best_config `{K : Keras}
    (env : environment) (config_path weight_path : string) (s : state) :
  let cfg := config (self s) in
  let r := Config.resource cfg in
  let connect := EvConnect (model_best_distributed_ftp_server r)
                           (model_best_distributed_ftp_user r)
                           (model_best_distributed_ftp_password r) in
  (uses_server cfg config_path = true
   <-> distributed (Config.model cfg) = true /\ config_path = model_best_config_path r)
  /\ (if uses_server cfg config_path
      then exists rest,
             ftp_log (snd (load env config_path weight_path s))
             = ftp_log s ++ connect :: rest
      else ftp_log (snd (load env config_path weight_path s)) = ftp_log s)
  /\ (is_Some (model (self s)) ->
      if uses_server cfg config_path
      then exists rest,
             ftp_log (snd (save env config_path weight_path s))
             = ftp_log s ++ connect :: rest
      else ftp_log (snd (save env config_path weight_path s)) = ftp_log s).
Proof.
  intros cfg r connect. split; [apply uses_server_iff | split].
  - rewrite load_eq, sync_from_server_eq. simpl. fold cfg.
    assert (Hlocal : forall s0, ftp_log (snd (load_local config_path weight_path s0))
                                = ftp_log s0).
    { intros s0. rewrite load_local_eq.
      case_matches; reflexivity. }
    rewrite Hlocal.
    destruct (uses_server cfg config_path); [|reflexivity].
    apply (load_from_server_frame env).
  - intros [m Hm]. rewrite (save_eq env _ _ _ m Hm). simpl. fold cfg.
    destruct (uses_server cfg config_path); [|reflexivity].
    match goal with
    | |- context [save_to_server env cfg ?c ?w ?s2] =>
        destruct (save_to_server_frame env cfg c w s2) as (_ & _ & rest & Hlog)
    end.
    exists rest. exact Hlog.
Qed.

(** C4, counterexample: distributed, the canonical config path, and a weight
    path that is not the canonical one; [load] and [save] both open an FTP
    session. *)
Lemma server_used_with_other_weight_path :
  "tmp/next_generation_weight.h5" <> model_best_weight_path Stub.resources
  /\ ftp_log (snd (load (Stub.env_of Stub.offline) Stub.best_c "tmp/next_generation_weight.h5"
                     (Stub.start ∅ (Stub.fresh true))))
     = [EvConnect "alpha-chess-zero.mygamesonline.org" "user" "password"]
  /\ ftp_log (snd (save (Stub.env_of Stub.offline) Stub.best_c "tmp/next_generation_weight.h5"
                     (Stub.start ∅ (Stub.built true))))
     = [EvConnect "alpha-chess-zero.mygamesonline.org" "user" "password"].
Proof.
  split; [discriminate | split; vm_compute; reflexivity].
Qed.

(** ** The fetch in load and the local files *)

Section FetchFacts.
Context `{K : Keras}.
Variable env : environment.

(** The local part of [load] writes no file and issues no FTP command. *)
Lemma load_local_frame (c w : string) (s : state) :
  fs (snd (load_local c w s)) = fs s
  /\ ftp_log (snd (load_local c w s)) = ftp_log s
  /\ config (self (snd (load_local c w s))) = config (self s).
Proof.
  rewrite load_local_eq. case_matches; auto.
Qed.

(** A session that fails before [cwd] has succeeded leaves the files alone. *)
Lemma sync_from_server_unreached (c w : string) (s : state) :
  let r := Config.resource (config (self s)) in
  uses_server (config (self s)) c = false
  \/ ftp_login (ftp env) (model_best_distributed_ftp_server r)
       (model_best_distributed_ftp_user r) (model_best_distributed_ftp_password r) = false
  \/ ftp_cwd_ok (ftp env) (model_best_distributed_ftp_remote_path r) = false ->
  fs (snd (sync_from_server env c w s)) = fs s.
Proof.
  intros r H. rewrite sync_from_server_eq. simpl.
  destruct (uses_server (config (self s)) c) eqn:Hu; [|reflexivity].
  rewrite load_from_server_eq. fold r.
  destruct H as [H | [H | H]]; [discriminate | rewrite H; reflexivity |].
  rewrite H. destruct (ftp_login _ _ _ _); reflexivity.
Qed.

End FetchFacts.

(** C5, at the failing input: the model is distributed, the canonical pair is
    loaded, both local files exist, the server accepts the session and the
    first [RETR] then fails, having delivered [part] (nothing at all when the
    server holds no model yet), which is not a complete JSON text.  The
    failure is swallowed, but the local architecture file has already been
    truncated and holds [part] only, so [load] raises from [json.load]
    instead of loading the local copy. *)
Theorem load_fetch_failure_clobbers_local `{K : Keras}
    (env : environment) (config_path weight_path : string) (s : state)
    (text data part : list byte) :
  let r := Config.resource (config (self s)) in
  let host := model_best_distributed_ftp_server r in
  let user := model_best_distributed_ftp_user r in
  let passwd := model_best_distributed_ftp_password r in
  let dir := model_best_distributed_ftp_remote_path r in
  uses_server (config (self s)) config_path = true ->
  ftp_login (ftp env) host user passwd = true ->
  ftp_cwd_ok (ftp env) dir = true ->
  ftp_retr (ftp env) "RETR model_best_config.json" = (part, false) ->
  json_load part = None ->
  fs s !! config_path = Some text ->
  fs s !! weight_path = Some data ->
  load env config_path weight_path s
  = (Raise JSONDecodeError,
     {| fs := <[config_path := part]> (fs s);
        ftp_log := ftp_log s ++ [EvConnect host user passwd; EvCwd dir;
                                 EvRetr "RETR model_best_config.json"];
        self := self s |}).
Proof.
  intros r host user passwd dir Hu Hlogin Hcwd Hretr Hjson Hc Hw.
  rewrite load_eq, sync_from_server_eq, Hu. simpl.
  rewrite load_from_server_eq.
  fold r host user passwd dir. rewrite Hlogin, Hcwd, Hretr. simpl.
  rewrite load_local_eq. simpl.
  rewrite lookup_insert_eq.
  destruct (decide (config_path = weight_path)) as [->|Hne].
  - rewrite lookup_insert_eq, Hjson. reflexivity.
  - rewrite lookup_insert_ne, Hw, Hjson by exact Hne. reflexivity.
Qed.

(** The same local files load when the server cannot be reached at all, and
    fail to load when it answers without holding a model. *)
Lemma load_fetch_failure_clobbers_local_witness :
  fst (load (Stub.env_of Stub.offline) Stub.best_c Stub.best_w
         (Stub.start Stub.good_files (Stub.fresh true)))
  = Return true
  /\ load (Stub.env_of Stub.empty_server) Stub.best_c Stub.best_w
       (Stub.start Stub.good_files (Stub.fresh true))
     = (Raise JSONDecodeError,
        {| fs := <[Stub.best_c := []]> Stub.good_files;
           ftp_log := [EvConnect "alpha-chess-zero.mygamesonline.org" "user" "password";
                       EvCwd "/alpha-chess-zero.mygamesonline.org/";
                       EvRetr "RETR model_best_config.json"];
           self := Stub.fresh true |}).
Proof.
  split; [vm_compute; reflexivity|].
  apply (load_fetch_failure_clobbers_local (Stub.env_of Stub.empty_server)
           Stub.best_c Stub.best_w (Stub.start Stub.good_files (Stub.fresh true))
           Stub.a_config Stub.a_weight []);
    reflexivity.
Defined.

(** C10 (as amended): when [load] attempts the fetch and the session gets
    past login and [cwd], the config file is opened for writing (created or
    truncated) before the config retrieval runs, and the weight file is opened
    only after the config retrieval has completed.  So afterwards the files
    are those of before with the bytes received written over each opened
    path: a file exists at the config path whether or not the transfer
    succeeded; one exists at the weight path exactly when the config
    retrieval completed or one was there already (or it is the config path
    itself); nothing restores what an opened file held before, and the rest
    of [load] writes no file. *)
Theorem fetch_opens_config_then_weight `{K : Keras}
    (env : environment) (config_path weight_path : string) (s : state) :
  let r := Config.resource (config (self s)) in
  let got_c := ftp_retr (ftp env) "RETR model_best_config.json" in
  let got_w := ftp_retr (ftp env) "RETR model_best_weight.h5" in
  let s' := snd (load env config_path weight_path s) in
  uses_server (config (self s)) config_path = true ->
  ftp_login (ftp env) (model_best_distributed_ftp_server r)
    (model_best_distributed_ftp_user r) (model_best_distributed_ftp_password r) = true ->
  ftp_cwd_ok (ftp env) (model_best_distributed_ftp_remote_path r) = true ->
  fs s' = (if snd got_c
           then <[weight_path := fst got_w]> (<[config_path := fst got_c]> (fs s))
           else <[config_path := fst got_c]> (fs s))
  /\ is_Some (fs s' !! config_path)
  /\ (is_Some (fs s' !! weight_path)
      <-> snd got_c = true \/ is_Some (fs s !! weight_path) \/ config_path = weight_path).
Proof.
  intros r got_c got_w s' Hu Hlogin Hcwd.
  assert (Hfs : fs s' = (if snd got_c
             then <[weight_path := fst got_w]> (<[config_path := fst got_c]> (fs s))
             else <[config_path := fst got_c]> (fs s))).
  { unfold s'. rewrite load_eq.
    destruct (load_local_frame config_path weight_path
                (snd (sync_from_server env config_path weight_path s))) as (-> & _ & _).
    rewrite sync_from_server_eq, Hu. simpl.
    rewrite load_from_server_eq. fold r got_c got_w. rewrite Hlogin, Hcwd. simpl.
    destruct (snd got_c); simpl; [|reflexivity].
    destruct (snd got_w); reflexivity. }
  split; [exact Hfs|]. rewrite Hfs.
  destruct (snd got_c).
  - split; [|split; [intros _; left; reflexivity | intros _]].
    + destruct (decide (weight_path = config_path)) as [->|Hne].
      * rewrite lookup_insert_eq. eexists; reflexivity.
      * rewrite lookup_insert_ne, lookup_insert_eq by exact Hne. eexists; reflexivity.
    + rewrite lookup_insert_eq. eexists; reflexivity.
  - split; [rewrite lookup_insert_eq; eexists; reflexivity|].
    destruct (decide (config_path = weight_path)) as [->|Hne].
    + rewrite lookup_insert_eq. split; [intros _; right; right; reflexivity|].
      intros _. eexists; reflexivity.
    + rewrite lookup_insert_ne by exact Hne.
      split; [intros H; right; left; exact H|].
      intros [H | [H | H]]; [discriminate | exact H | contradiction].
Qed.

Lemma fetch_opens_config_then_weight_witness :
  let s' := snd (load (Stub.env_of Stub.full_server) Stub.best_c Stub.best_w
                   (Stub.start Stub.good_files (Stub.fresh true))) in
  fs s' = <[Stub.best_w := Stub.remote_weight]>
            (<[Stub.best_c := Stub.remote_config]> Stub.good_files)
  /\ is_Some (fs s' !! Stub.best_c)
  /\ (is_Some (fs s' !! Stub.best_w)
      <-> true = true \/ is_Some (Stub.good_files !! Stub.best_w) \/ Stub.best_c = Stub.best_w).
Proof.
  apply (fetch_opens_config_then_weight (Stub.env_of Stub.full_server)
           Stub.best_c Stub.best_w (Stub.start Stub.good_files (Stub.fresh true)));
    reflexivity.
Defined.

(** C10, counterexample: the session reaches the first [open] and the config
    retrieval fails; a file now exists at the config path and none at the
    weight path. *)
Lemma fetch_failure_leaves_weight_path_absent :
  fs (snd (load (Stub.env_of Stub.empty_server) Stub.best_c Stub.best_w
             (Stub.start ∅ (Stub.fresh true)))) !! Stub.best_c = Some []
  /\ fs (snd (load (Stub.env_of Stub.empty_server) Stub.best_c Stub.best_w
                (Stub.start ∅ (Stub.fresh true)))) !! Stub.best_w = None
  /\ ftp_log (snd (load (Stub.env_of Stub.empty_server) Stub.best_c Stub.best_w
                     (Stub.start ∅ (Stub.fresh true))))
     = [EvConnect "alpha-chess-zero.mygamesonline.org" "user" "password";
        EvCwd "/alpha-chess-zero.mygamesonline.org/";
        EvRetr "RETR model_best_config.json"].
Proof.
  repeat split; vm_compute; reflexivity.
Qed.

(** ** What save leaves on disk *)

(** [save] with a built graph and two different paths: the result and the
    state it leaves, up to the FTP log. *)
Lemma save_distinct `{K : Keras}
    (env : environment) (c w : string) (s : state) (m : Model) :
  model (self s) = Some m ->
  c <> w ->
  fst (save env c w s) = Return tt
  /\ fs (snd (save env c w s)) = <[w := save_weights m]> (<[c := get_config_json m]> (fs s))
  /\ self (snd (save env c w s))
     = {| config := config (self s); model := Some m;
          digest := Some (sha256_of (save_weights m)) |}.
Proof.
  intros Hm Hne.
  rewrite (save_eq env _ _ _ m Hm).
  rewrite (save_local_distinct env _ _ _ m Hm Hne). simpl.
  rewrite lookup_insert_eq. simpl.
  destruct (uses_server (config (self s)) c); [|auto].
  match goal with
  | |- context [save_to_server env ?cfg ?c ?w ?s2] =>
      destruct (save_to_server_frame env cfg c w s2) as (Hfs & Hself & _)
  end.
  simpl in Hfs, Hself. rewrite Hfs, Hself. auto.
Qed.

(** C6 (as amended): on an object with a built graph and two different
    paths, [save] returns normally, whatever the files held before; the
    config path then holds the serialised architecture, the weight path the
    weight values, every other file is as before, and [self.digest] is the
    SHA-256 digest of the weight file just written. *)
Theorem save_writes_both_files `{K : Keras}
    (env : environment) (config_path weight_path : string) (s : state) (m : Model) :
  model (self s) = Some m ->
  config_path <> weight_path ->
  let s' := snd (save env config_path weight_path s) in
  fst (save env config_path weight_path s) = Return tt
  /\ fs s' = <[weight_path := save_weights m]> (<[config_path := get_config_json m]> (fs s))
  /\ digest (self s') = Some (sha256_of (save_weights m))
  /\ digest (self s') = sha256_of <$> fs s' !! weight_path
  /\ model (self s') = Some m.
Proof.
  intros Hm Hne s'.
  destruct (save_distinct env config_path weight_path s m Hm Hne) as (Hr & Hfs & Hself).
  fold s' in Hfs, Hself.
  rewrite Hr, Hfs, Hself. simpl. rewrite lookup_insert_eq. auto.
Qed.

Lemma save_writes_both_files_witness :
  fst (save (Stub.env_of Stub.full_server) Stub.best_c Stub.best_w
         (Stub.start Stub.good_files (Stub.built true))) = Return tt
  /\ fs (snd (save (Stub.env_of Stub.full_server) Stub.best_c Stub.best_w
                (Stub.start Stub.good_files (Stub.built true))))
     = <[Stub.best_w := Stub.a_weight]> (<[Stub.best_c := Stub.a_config]> Stub.good_files)
  /\ digest (self (snd (save (Stub.env_of Stub.full_server) Stub.best_c Stub.best_w
                          (Stub.start Stub.good_files (Stub.built true)))))
     = Some (sha256_of Stub.a_weight)
  /\ digest (self (snd (save (Stub.env_of Stub.full_server) Stub.best_c Stub.best_w
                          (Stub.start Stub.good_files (Stub.built true)))))
     = sha256_of <$> fs (snd (save (Stub.env_of Stub.full_server) Stub.best_c Stub.best_w
                                (Stub.start Stub.good_files (Stub.built true))))
                     !! Stub.best_w
  /\ model (self (snd (save (Stub.env_of Stub.full_server) Stub.best_c Stub.best_w
                         (Stub.start Stub.good_files (Stub.built true)))))
     = Some Stub.a_model.
Proof.
  apply (save_writes_both_files (Stub.env_of Stub.full_server) Stub.best_c Stub.best_w
           (Stub.start Stub.good_files (Stub.built true)) Stub.a_model);
    [reflexivity | discriminate].
Defined.

(** C6, counterexample: one path given for both files.  The file ends up
    holding the architecture text, not the weight values. *)
Lemma save_same_path_keeps_one_file :
  fst (save (Stub.env_of Stub.offline) "model.out" "model.out"
         (Stub.start ∅ (Stub.built false))) = Return tt
  /\ fs (snd (save (Stub.env_of Stub.offline) "model.out" "model.out"
                (Stub.start ∅ (Stub.built false)))) !! "model.out"
     = Some Stub.a_config
  /\ Stub.a_config <> Stub.a_weight.
Proof.
  split; [vm_compute; reflexivity | split; [vm_compute; reflexivity | discriminate]].
Qed.

(** ** save followed by load *)



(** With the stand-in back end the saved model is read back whole. *)
Example reread_stub : @reread Stub.keras Stub.a_model = Return Stub.a_model.
Proof. reflexivity. Qed.


(** ** The base network *)

Lemma conv_shape_same (filters k c h w : Z) :
  0 < filters -> 0 < k -> 0 < c -> 0 < h -> 0 < w ->
  conv_shape filters (KInt k) pad_same "channels_first" [Some [c; h; w]]
  = Some [filters; h; w].
Proof.
  intros Hf Hk Hc Hh Hw. unfold conv_shape. simpl.
  apply Z.ltb_lt in Hf, Hk, Hc, Hh, Hw.
  rewrite Hf, Hk, Hc, Hh, Hw. reflexivity.
Qed.


Section BaseNetwork.
Variable cfg : Config.t.
Let mc := Config.model cfg.
Hypothesis filters_pos : 0 < cnn_filter_num mc.
Hypothesis first_kernel_pos : 0 < cnn_first_filter_size mc.
Hypothesis kernel_pos : 0 < cnn_filter_size mc.

(** A residual block keeps the shape of its input. *)
Lemma residual_block_shape (x : tensor) (index h w : Z) :
  0 < h -> 0 < w ->
  shape_of x = Some [cnn_filter_num mc; h; w] ->
  shape_of (_build_residual_block mc x index) = Some [cnn_filter_num mc; h; w].
Proof.
  intros Hh Hw Hx. unfold _build_residual_block.
  cbn [shape_of List.map layer_shape]. rewrite Hx.
  rewrite conv_shape_same by assumption.
  rewrite conv_shape_same by assumption.
  unfold add_shape. cbn [all_shapes option_map forallb].
  rewrite bool_decide_eq_true_2 by reflexivity. reflexivity.
Qed.

Lemma residual_tower_shape (indices : list Z) (x : tensor) (h w : Z) :
  0 < h -> 0 < w ->
  shape_of x = Some [cnn_filter_num mc; h; w] ->
  shape_of (List.fold_left (fun x i => _build_residual_block mc x (i + 1)) indices x)
  = Some [cnn_filter_num mc; h; w].
Proof.
  intros Hh Hw. revert x.
  induction indices as [|i indices IH]; intros x Hx; simpl; [exact Hx|].
  apply IH, residual_block_shape; assumption.
Qed.

Lemma res_out_shape :
  shape_of (res_out cfg (Input [18; 8; 8])) = Some [cnn_filter_num mc; 8; 8].
Proof.
  unfold res_out. fold mc. apply residual_tower_shape; [lia | lia |].
  cbn [shape_of List.map layer_shape].
  rewrite conv_shape_same by (assumption || lia). reflexivity.
Qed.

End BaseNetwork.




(** [build] stores the wired graph in [self.model] and touches nothing else. *)
Lemma build_eq `{K : Keras} (s : state) :
  build s
  = (Return tt,
     {| fs := fs s; ftp_log := ftp_log s;
        self := {| config := config (self s);
                   model := Some (Model_init (net_input (build_network (config (self s))))
                                    [policy_out (build_network (config (self s)));
                                     value_out (build_network (config (self s)))]
                                    "chess_model");
                   digest := digest (self s) |} |}).
Proof. reflexivity. Qed.

(** ** The alternative network *)

(** The first helper returns a tensor. *)
Lemma pointwise_conv_returns (this : Better.attrs) (layer : tensor) (channels : Z) :
  exists t, Better.pointwise_conv this layer channels = Return t.
Proof. eexists. reflexivity. Qed.

(** Calling that tensor raises. *)
Lemma pointwise_and_separable_raises (this : Better.attrs) (layer : tensor)
    (channels : Z) (k : kernel) :
  Better.pointwise_and_separable this layer channels k = Raise TypeError.
Proof. reflexivity. Qed.

Lemma custom_layer_raises (this : Better.attrs) (previous : tensor) :
  Better.custom_layer this previous = Raise TypeError.
Proof. reflexivity. Qed.

(** C8, at the failing input: with the attributes [__init__] sets
    ([blocks_count = 6]), [BetterChessModel.build] raises [TypeError] in the
    first custom block for every [Config], and [self.model] stays as it was:
    no graph, hence no policy or value output, is produced. *)
Theorem better_build_raises `{K : Keras} (s : state) :
  Better.build_network Better.init (config (self s)) = Raise TypeError
  /\ Better.build Better.init s = (Raise TypeError, s).
Proof.
  split; [reflexivity|].
  unfold Better.build, bind, get_self. reflexivity.
Qed.

(** C9: the widths [__init__] gives the four branches of a custom block,
    [conv5_channels], [conv15_channels] and [conv_along_axis_channels] twice,
    add up to [self.channels] exactly; they are 92, 4, 16 and 16 out of 128.
    The same holds, in unbounded integer arithmetic, for any attribute values
    related as [__init__] relates them. *)
Theorem branch_channels_sum :
  Better.conv5_channels Better.init + Better.conv15_channels Better.init
  + Better.conv_along_axis_channels Better.init
  + Better.conv_along_axis_channels Better.init
  = Better.channels Better.init
  /\ [Better.conv5_channels Better.init; Better.conv15_channels Better.init;
      Better.conv_along_axis_channels Better.init;
      Better.conv_along_axis_channels Better.init] = [92; 4; 16; 16]
  /\ Better.channels Better.init = 128
  /\ forall this : Better.attrs,
       Better.conv5_channels this
       = Better.channels this - Better.conv_along_axis_channels this * 2
         - Better.conv15_channels this ->
       Better.conv5_channels this + Better.conv15_channels this
       + Better.conv_along_axis_channels this + Better.conv_along_axis_channels this
       = Better.channels this.
Proof.
  split; [reflexivity | split; [reflexivity | split; [reflexivity|]]].
  intros this Hinit. lia.
Qed.

(** * Further properties *)

(** X1: a digest returned by [fetch_digest] is 64 characters long, and one
    is returned exactly when the file exists. *)
Theorem fetch_digest_hex_length `{K : Keras} (weight_path : string) (s : state) :
  match fs s !! weight_path with
  | Some _ => exists d, fst (fetch_digest weight_path s) = Return (Some d)
                        /\ String.length d = 64%nat
  | None => fst (fetch_digest weight_path s) = Return None
  end.
Proof.
  rewrite fetch_digest_eq.
  destruct (fs s !! weight_path) as [data|]; simpl; [|reflexivity].
  exists (sha256_of data). split; [reflexivity | apply sha256_of_length].
Qed.

(** X2: when the server refuses the login or the [cwd], [load] leaves the
    local files as they were and returns what the local part alone
    returns. *)
Theorem load_falls_back_when_unreachable `{K : Keras}
    (env : environment) (config_path weight_path : string) (s : state) :
  let r := Config.resource (config (self s)) in
  ftp_login (ftp env) (model_best_distributed_ftp_server r)
    (model_best_distributed_ftp_user r) (model_best_distributed_ftp_password r) = false
  \/ ftp_cwd_ok (ftp env) (model_best_distributed_ftp_remote_path r) = false ->
  fst (load env config_path weight_path s) = fst (load_local config_path weight_path s)
  /\ fs (snd (load env config_path weight_path s)) = fs s.
Proof.
  intros r Hfail.
  assert (Hfs : fs (snd (sync_from_server env config_path weight_path s)) = fs s).
  { apply sync_from_server_unreached. right. exact Hfail. }
  rewrite load_eq. split.
  - rewrite !load_local_eq, Hfs. case_matches; reflexivity.
  - destruct (load_local_frame config_path weight_path
                (snd (sync_from_server env config_path weight_path s))) as (-> & _).
    exact Hfs.
Qed.

Lemma load_falls_back_when_unreachable_witness :
  fst (load (Stub.env_of Stub.offline) Stub.best_c Stub.best_w
         (Stub.start Stub.good_files (Stub.fresh true)))
  = fst (load_local Stub.best_c Stub.best_w
           (Stub.start Stub.good_files (Stub.fresh true)))
  /\ fs (snd (load (Stub.env_of Stub.offline) Stub.best_c Stub.best_w
                (Stub.start Stub.good_files (Stub.fresh true))))
     = Stub.good_files.
Proof.
  apply (load_falls_back_when_unreachable (Stub.env_of Stub.offline)
           Stub.best_c Stub.best_w (Stub.start Stub.good_files (Stub.fresh true))).
  left. reflexivity.
Defined.

(** X3: [save] on an object whose graph was never built raises
    [AttributeError]; by then the config file has been created or truncated,
    and nothing else has happened. *)
Theorem save_without_graph_raises `{K : Keras}
    (env : environment) (config_path weight_path : string) (s : state) :
  model (self s) = None ->
  save env config_path weight_path s
  = (Raise AttributeError,
     {| fs := <[config_path := []]> (fs s); ftp_log := ftp_log s; self := self s |}).
Proof. apply save_unbuilt. Qed.

Lemma save_without_graph_raises_witness :
  save (Stub.env_of Stub.full_server) Stub.best_c Stub.best_w
    (Stub.start Stub.good_files (Stub.fresh true))
  = (Raise AttributeError,
     {| fs := <[Stub.best_c := []]> Stub.good_files; ftp_log := [];
        self := Stub.fresh true |}).
Proof.
  apply (save_without_graph_raises (Stub.env_of Stub.full_server) Stub.best_c Stub.best_w
           (Stub.start Stub.good_files (Stub.fresh true))).
  reflexivity.
Defined.

(** X4: whatever the number of residual blocks, the tower built by [build]
    keeps the shape of the stem's output: [cnn_filter_num] channels over the
    8 by 8 board. *)
Theorem residual_tower_keeps_shape (cfg : Config.t) :
  0 < cnn_filter_num (Config.model cfg) ->
  0 < cnn_first_filter_size (Config.model cfg) ->
  0 < cnn_filter_size (Config.model cfg) ->
  shape_of (res_out cfg (Input [18; 8; 8]))
  = Some [cnn_filter_num (Config.model cfg); 8; 8].
Proof. apply res_out_shape. Qed.

Lemma residual_tower_keeps_shape_witness :
  shape_of (res_out (Stub.cfg false) (Input [18; 8; 8])) = Some [256; 8; 8].
Proof.
  apply (residual_tower_keeps_shape (Stub.cfg false)); reflexivity.
Defined.

Lemma conv_shape_same_kernel (filters c h w : Z) (k : kernel) :
  0 < filters -> 0 < fst (kernel_hw k) -> 0 < snd (kernel_hw k) ->
  0 < c -> 0 < h -> 0 < w ->
  conv_shape filters k pad_same "channels_first" [Some [c; h; w]] = Some [filters; h; w].
Proof.
  intros Hf Hkh Hkw Hc Hh Hw. unfold conv_shape.
  destruct (kernel_hw k) as [kh kw]. simpl in *.
  apply Z.ltb_lt in Hf, Hkh, Hkw, Hc, Hh, Hw.
  rewrite Hf, Hkh, Hkw, Hc, Hh, Hw. reflexivity.
Qed.

(** X5: for any attribute values Keras accepts ahead of the faulty call
    (channels-first data, positive [channels], [conv5_channels] and
    [conv_along_axis_channels]) and any positive [blocks_count], the input
    projection and the first branch of the first block are built, with
    [channels] and [conv5_channels] channels over the 8 by 8 board, and
    wiring the network then raises [TypeError]. *)
Theorem better_build_raises_in_first_block (this : Better.attrs) (cfg : Config.t) :
  Better.data_format this = "channels_first" ->
  0 < Better.channels this ->
  0 < Better.conv5_channels this ->
  0 < Better.conv_along_axis_channels this ->
  0 < Better.blocks_count this ->
  (exists x conv5 p,
      Better.pointwise_conv this (Input [18; 8; 8]) (Better.channels this) = Return x
      /\ shape_of x = Some [Better.channels this; 8; 8]
      /\ Better.separable_conv this x (Better.conv5_channels this) (KPair 5 5)
         = Return conv5
      /\ shape_of conv5 = Some [Better.conv5_channels this; 8; 8]
      /\ Better.pointwise_conv this x (Better.conv_along_axis_channels this) = Return p
      /\ shape_of p = Some [Better.conv_along_axis_channels this; 8; 8])
  /\ Better.build_network this cfg = Raise TypeError.
Proof.
  intros Hdf Hch H5 Hal Hpos. split.
  - do 3 eexists.
    assert (Hx : shape_of (Call (LeakyReLU (Better.leaky_alpha this))
                   [Call (BatchNormalization 1 None)
                      [Call (Conv2D (Better.channels this) (KInt 1) pad_same
                                    (Better.data_format this) false None None)
                         [Input [18; 8; 8]]]])
                 = Some [Better.channels this; 8; 8]).
    { cbn [shape_of List.map layer_shape]. rewrite Hdf.
      rewrite (conv_shape_same_kernel _ 18 8 8 (KInt 1)) by (simpl; lia). reflexivity. }
    split; [reflexivity|]. split; [exact Hx|].
    split; [reflexivity|]. split.
    + cbn [shape_of List.map] in *. rewrite Hx. cbn [layer_shape]. rewrite Hdf.
      rewrite (conv_shape_same_kernel _ _ 8 8 (KPair 5 5)) by (simpl; lia). reflexivity.
    + split; [reflexivity|].
      cbn [shape_of List.map] in *. rewrite Hx. cbn [layer_shape]. rewrite Hdf.
      rewrite (conv_shape_same_kernel _ _ 8 8 (KInt 1)) by (simpl; lia). reflexivity.
  - unfold Better.build_network, range.
    destruct (Z.to_nat (Better.blocks_count this)) as [|n] eqn:E; [lia|].
    reflexivity.
Qed.

Lemma better_build_raises_in_first_block_witness :
  (exists x conv5 p,
      Better.pointwise_conv Better.init (Input [18; 8; 8]) 128 = Return x
      /\ shape_of x = Some [128; 8; 8]
      /\ Better.separable_conv Better.init x 92 (KPair 5 5) = Return conv5
      /\ shape_of conv5 = Some [92; 8; 8]
      /\ Better.pointwise_conv Better.init x 16 = Return p
      /\ shape_of p = Some [16; 8; 8])
  /\ Better.build_network Better.init (Stub.cfg false) = Raise TypeError.
Proof.
  apply (better_build_raises_in_first_block Better.init (Stub.cfg false)); reflexivity.
Defined.

(** ** More on digests *)

Lemma hex_digit_lower (n : Z) : 0 <= n < 16 -> is_lower_hex (Sha256.hex_digit n) = true.
Proof.
  intros Hn.
  assert (Hall : List.forallb (fun d => is_lower_hex (Sha256.hex_digit d)) (range 16) = true)
    by reflexivity.
  rewrite List.forallb_forall in Hall. apply Hall.
  unfold range. apply List.in_map_iff. exists (Z.to_nat n).
  split; [lia | apply List.in_seq; lia].
Qed.

Lemma be_bytes_range (n : nat) (x : Z) :
  List.Forall (fun b => 0 <= b < 256) (Sha256.be_bytes n x).
Proof.
  induction n as [|n IH]; simpl; constructor; [|exact IH].
  change 255 with (Z.ones 8). rewrite Z.land_ones by lia.
  apply Z.mod_pos_bound. lia.
Qed.

Lemma digest_bytes_range (data : list byte) :
  List.Forall (fun b => 0 <= b < 256) (Sha256.digest_bytes data).
Proof.
  unfold Sha256.digest_bytes.
  induction (Sha256.digest_words data) as [|w ws IH]; [constructor|].
  cbn [List.map List.concat]. apply List.Forall_app. split; [apply be_bytes_range | exact IH].
Qed.

Lemma hex_of_bytes_lower (bs : list Z) :
  List.Forall (fun b => 0 <= b < 256) bs ->
  List.Forall (fun c => is_lower_hex c = true)
    (list_ascii_of_string (Sha256.hex_of_bytes bs)).
Proof.
  induction 1 as [|b bs Hb _ IH]; [constructor|].
  cbn [Sha256.hex_of_bytes list_ascii_of_string].
  constructor; [|constructor; [|exact IH]]; apply hex_digit_lower.
  - rewrite Z.shiftr_div_pow2 by lia. change (2 ^ 4) with 16.
    split; [apply Z.div_pos; lia | apply Z.div_lt_upper_bound; lia].
  - change 15 with (Z.ones 4). rewrite Z.land_ones by lia.
    apply Z.mod_pos_bound. lia.
Qed.

Lemma sha256_of_lower_hex (data : list byte) :
  List.Forall (fun c => is_lower_hex c = true) (list_ascii_of_string (sha256_of data)).
Proof.
  unfold sha256_of, Sha256.hexdigest. apply hex_of_bytes_lower, digest_bytes_range.
Qed.

(** X6: every digest [fetch_digest] returns is made of the characters
    [0-9a-f] only (and there are 64 of them). *)
Theorem fetch_digest_lower_hex `{K : Keras} (weight_path : string) (s : state) (d : string) :
  fst (fetch_digest weight_path s) = Return (Some d) ->
  List.Forall (fun c => is_lower_hex c = true) (list_ascii_of_string d)
  /\ String.length d = 64%nat.
Proof.
  rewrite fetch_digest_eq. simpl.
  destruct (fs s !! weight_path) as [data|]; simpl; [|discriminate].
  intros [= <-]. split; [apply sha256_of_lower_hex | apply sha256_of_length].
Qed.

Lemma fetch_digest_lower_hex_witness :
  List.Forall (fun c => is_lower_hex c = true)
    (list_ascii_of_string "ab20903b813807d3cc5823c5e6eaff496d8d3db5f841a1b3bc0f7d5dec25d8a6")
  /\ String.length "ab20903b813807d3cc5823c5e6eaff496d8d3db5f841a1b3bc0f7d5dec25d8a6" = 64%nat.
Proof.
  apply (fetch_digest_lower_hex Stub.best_w (Stub.start Stub.good_files (Stub.fresh false))).
  vm_compute. reflexivity.
Defined.

(** ** More on save *)

Section MoreSaveFacts.
Context `{K : Keras}.
Variable env : environment.

(** What [save] leaves at the weight path, whatever the two paths are. *)
Lemma save_local_weight_present (c w : string) (s : state) (m : Model) :
  model (self s) = Some m ->
  is_Some (fs (snd (save_local env c w s)) !! w).
Proof.
  intros Hm. rewrite save_local_eq, Hm. cbv zeta. simpl.
  destruct (decide (c = w)) as [->|Hne].
  - rewrite lookup_insert_eq. eexists; reflexivity.
  - rewrite lookup_insert_ne, lookup_insert_eq by exact Hne. eexists; reflexivity.
Qed.

(** The files and the object once [save] has returned. *)
Lemma save_final (c w : string) (s : state) (m : Model) :
  model (self s) = Some m ->
  fs (snd (save env c w s)) = fs (snd (save_local env c w s))
  /\ self (snd (save env c w s))
     = {| config := config (self s); model := Some m;
          digest := sha256_of <$> fs (snd (save_local env c w s)) !! w |}.
Proof.
  intros Hm. rewrite (save_eq env _ _ _ m Hm). simpl.
  destruct (uses_server (config (self s)) c); [|auto].
  match goal with
  | |- context [save_to_server env ?cfg ?c ?w ?s2] =>
      destruct (save_to_server_frame env cfg c w s2) as (Hfs & Hself & _)
  end.
  simpl in Hfs, Hself. rewrite Hfs, Hself. auto.
Qed.

(** The server part of [save], by how far the session gets, when both files
    are there to be read. *)
Lemma save_to_server_log (cfg : Config.t) (c w : string) (s : state)
    (text data : list byte) :
  let r := Config.resource cfg in
  let host := model_best_distributed_ftp_server r in
  let user := model_best_distributed_ftp_user r in
  let passwd := model_best_distributed_ftp_password r in
  let dir := model_best_distributed_ftp_remote_path r in
  fs s !! c = Some text ->
  fs s !! w = Some data ->
  ftp_log (snd (save_to_server env cfg c w s)) =
  ftp_log s ++
  EvConnect host user passwd ::
  (if ftp_login (ftp env) host user passwd then
     EvCwd dir ::
     (if ftp_cwd_ok (ftp env) dir then
        EvStor "STOR model_best_config.json" text ::
        (if ftp_stor (ftp env) "STOR model_best_config.json" text then
           EvStor "STOR model_best_weight.h5" data ::
           (if ftp_stor (ftp env) "STOR model_best_weight.h5" data then [EvQuit] else [])
         else [])
      else [])
   else []).
Proof.
  intros r host user passwd dir Hc Hw.
  cbv [save_to_server bind FTP ftp_cwd storbinary ftp_quit read_file
         with_fs log_ftp ret raise].
  fold r host user passwd dir. simpl.
  destruct (ftp_login (ftp env) host user passwd); simpl; [|reflexivity].
  destruct (ftp_cwd_ok (ftp env) dir); simpl; [|rewrite <- app_assoc; reflexivity].
  rewrite Hc. simpl.
  destruct (ftp_stor (ftp env) "STOR model_best_config.json" text); simpl;
    [|rewrite <- !app_assoc; reflexivity].
  rewrite Hw. simpl.
  destruct (ftp_stor (ftp env) "STOR model_best_weight.h5" data); simpl;
    [destruct (ftp_quit_ok (ftp env)); simpl|]; rewrite <- !app_assoc; reflexivity.
Qed.

End MoreSaveFacts.

(** X7: the server has no say in what [save] does locally.  Run against
    any two servers, reachable or not, accepting or refusing the files,
    [save] ends the same way (it returns, or raises the same exception) and
    leaves the same local files, the same graph and the same digest: whatever
    goes wrong in the push is swallowed, and the push only reads. *)
Theorem save_ignores_server `{K : Keras}
    (srv1 srv2 : ftp_server) (early : list byte -> nat)
    (config_path weight_path : string) (s : state) :
  let env1 := {| ftp := srv1; flushed_early := early |} in
  let env2 := {| ftp := srv2; flushed_early := early |} in
  fst (save env1 config_path weight_path s) = fst (save env2 config_path weight_path s)
  /\ fs (snd (save env1 config_path weight_path s))
     = fs (snd (save env2 config_path weight_path s))
  /\ self (snd (save env1 config_path weight_path s))
     = self (snd (save env2 config_path weight_path s)).
Proof.
  intros env1 env2.
  destruct (model (self s)) as [m|] eqn:Hm.
  - rewrite (save_eq env1 _ _ _ m Hm), (save_eq env2 _ _ _ m Hm).
    rewrite !save_local_eq, Hm. cbn [fst snd flushed_early env1 env2 fs].
    destruct (uses_server (config (self s)) config_path); [|repeat split].
    match goal with
    | |- context [save_to_server env1 ?cfg ?c ?w ?st] =>
        destruct (save_to_server_frame env1 cfg c w st) as (F1 & S1 & _);
        destruct (save_to_server_frame env2 cfg c w st) as (F2 & S2 & _)
    end.
    rewrite F1, F2, S1, S2. repeat split.
  - rewrite !save_unbuilt by exact Hm. repeat split.
Qed.

(** X8: after [save], for every pair of paths (equal or not) and every
    server, a file exists at the weight path and [self.digest] is the digest
    of that file as it now is on disk: [fetch_digest] returns
    [self.digest]. *)
Theorem save_digest_matches_disk `{K : Keras}
    (env : environment) (config_path weight_path : string) (s : state) :
  is_Some (model (self s)) ->
  let s' := snd (save env config_path weight_path s) in
  is_Some (fs s' !! weight_path)
  /\ is_Some (digest (self s'))
  /\ fetch_digest weight_path s' = (Return (digest (self s')), s').
Proof.
  intros [m Hm] s'.
  destruct (save_final env config_path weight_path s m Hm) as (Hfs & Hself).
  fold s' in Hfs, Hself.
  destruct (save_local_weight_present env config_path weight_path s m Hm) as [data Hdata].
  rewrite fetch_digest_eq, Hself, Hfs, Hdata. simpl. eauto.
Qed.

Lemma save_digest_matches_disk_witness :
  is_Some (fs (snd (save (Stub.env_of Stub.offline) "model.out" "model.out"
                      (Stub.start ∅ (Stub.built true)))) !! "model.out")
  /\ is_Some (digest (self (snd (save (Stub.env_of Stub.offline) "model.out" "model.out"
                                   (Stub.start ∅ (Stub.built true))))))
  /\ fetch_digest "model.out"
       (snd (save (Stub.env_of Stub.offline) "model.out" "model.out"
               (Stub.start ∅ (Stub.built true))))
     = (Return (digest (self (snd (save (Stub.env_of Stub.offline) "model.out" "model.out"
                                     (Stub.start ∅ (Stub.built true)))))),
        snd (save (Stub.env_of Stub.offline) "model.out" "model.out"
               (Stub.start ∅ (Stub.built true)))).
Proof.
  apply (save_digest_matches_disk (Stub.env_of Stub.offline) "model.out" "model.out"
           (Stub.start ∅ (Stub.built true))).
  eexists; reflexivity.
Defined.

(** X14: when [save] pushes (distributed, canonical config path, two
    different paths), it sends the architecture text it has just written,
    then the weight file it has just written, under the two fixed remote
    names, then quits; a refused [STOR] ends the session there, so the
    weights are never sent without the architecture. *)
Theorem save_pushes_what_it_wrote `{K : Keras}
    (env : environment) (config_path weight_path : string) (s : state) (m : Model) :
  let r := Config.resource (config (self s)) in
  let host := model_best_distributed_ftp_server r in
  let user := model_best_distributed_ftp_user r in
  let passwd := model_best_distributed_ftp_password r in
  let dir := model_best_distributed_ftp_remote_path r in
  model (self s) = Some m ->
  config_path <> weight_path ->
  uses_server (config (self s)) config_path = true ->
  ftp_login (ftp env) host user passwd = true ->
  ftp_cwd_ok (ftp env) dir = true ->
  ftp_log (snd (save env config_path weight_path s)) =
  ftp_log s ++
  [EvConnect host user passwd; EvCwd dir;
   EvStor "STOR model_best_config.json" (get_config_json m)] ++
  (if ftp_stor (ftp env) "STOR model_best_config.json" (get_config_json m) then
     EvStor "STOR model_best_weight.h5" (save_weights m) ::
     (if ftp_stor (ftp env) "STOR model_best_weight.h5" (save_weights m)
      then [EvQuit] else [])
   else []).
Proof.
  intros r host user passwd dir Hm Hne Hu Hlogin Hcwd.
  rewrite (save_eq env _ _ _ m Hm), Hu.
  rewrite (save_local_distinct env _ _ _ m Hm Hne). cbn [snd fs].
  rewrite (save_to_server_log env _ _ _ _ (get_config_json m) (save_weights m)).
  - cbn [ftp_log]. fold r host user passwd dir. rewrite Hlogin, Hcwd. reflexivity.
  - cbn [fs]. rewrite lookup_insert_ne, lookup_insert_eq by congruence. reflexivity.
  - cbn [fs]. rewrite lookup_insert_eq. reflexivity.
Qed.

Lemma save_pushes_what_it_wrote_witness :
  ftp_log (snd (save (Stub.env_of Stub.full_server) Stub.best_c Stub.best_w
                  (Stub.start ∅ (Stub.built true))))
  = [] ++
    [EvConnect "alpha-chess-zero.mygamesonline.org" "user" "password";
     EvCwd "/alpha-chess-zero.mygamesonline.org/";
     EvStor "STOR model_best_config.json" Stub.a_config] ++
    [EvStor "STOR model_best_weight.h5" Stub.a_weight; EvQuit].
Proof.
  apply (save_pushes_what_it_wrote (Stub.env_of Stub.full_server) Stub.best_c Stub.best_w
           (Stub.start ∅ (Stub.built true)) Stub.a_model);
    (reflexivity || discriminate).
Defined.

(** ** More on load *)

Section MoreLoadFacts.
Context `{K : Keras}.

(** The local part of [load] reads the two files and the object, nothing
    else. *)
Lemma load_local_depends (c w : string) (a b : state) :
  fs a !! c = fs b !! c -> fs a !! w = fs b !! w -> self a = self b ->
  fst (load_local c w a) = fst (load_local c w b)
  /\ self (snd (load_local c w a)) = self (snd (load_local c w b)).
Proof.
  intros Hc Hw Hself. rewrite !load_local_eq, Hc, Hw, Hself.
  case_matches; auto.
Qed.

(** The files after the server part of [load], path by path. *)
Lemma sync_from_server_other (env : environment) (c w p : string) (s : state) :
  p <> c -> p <> w ->
  fs (snd (sync_from_server env c w s)) !! p = fs s !! p.
Proof.
  intros Hc Hw. rewrite sync_from_server_eq. simpl.
  destruct (uses_server (config (self s)) c); [|reflexivity].
  rewrite load_from_server_eq. cbv zeta.
  repeat match goal with |- context [if ?b then _ else _] => destruct b end;
    simpl; rewrite ?lookup_insert_ne by congruence; reflexivity.
Qed.

End MoreLoadFacts.

(** X9: when [load] returns true, [self.model] is set and [self.digest] is
    the digest of the weight file as it now is on disk: [fetch_digest]
    returns [self.digest]. *)
Theorem load_digest_matches_disk `{K : Keras}
    (env : environment) (config_path weight_path : string) (s : state) :
  fst (load env config_path weight_path s) = Return true ->
  let s' := snd (load env config_path weight_path s) in
  is_Some (model (self s'))
  /\ is_Some (digest (self s'))
  /\ fetch_digest weight_path s' = (Return (digest (self s')), s').
Proof.
  rewrite load_eq, load_local_eq.
  set (s1 := snd (sync_from_server env config_path weight_path s)).
  destruct (fs s1 !! config_path) as [text|] eqn:Ec; [|discriminate].
  destruct (fs s1 !! weight_path) as [data|] eqn:Ew; [|discriminate].
  destruct (json_load text) as [j|]; [|discriminate].
  destruct (Model_from_config j) as [m0|]; [|discriminate].
  destruct (load_weights m0 data) as [m1|]; [|discriminate].
  intros _. simpl. rewrite fetch_digest_eq. simpl. rewrite Ew. simpl. eauto.
Qed.

Lemma load_digest_matches_disk_witness :
  is_Some (model (self (snd (load (Stub.env_of Stub.offline) Stub.best_c Stub.best_w
                               (Stub.start Stub.good_files (Stub.fresh false))))))
  /\ is_Some (digest (self (snd (load (Stub.env_of Stub.offline) Stub.best_c Stub.best_w
                                   (Stub.start Stub.good_files (Stub.fresh false))))))
  /\ fetch_digest Stub.best_w
       (snd (load (Stub.env_of Stub.offline) Stub.best_c Stub.best_w
               (Stub.start Stub.good_files (Stub.fresh false))))
     = (Return (digest (self (snd (load (Stub.env_of Stub.offline) Stub.best_c Stub.best_w
                                     (Stub.start Stub.good_files (Stub.fresh false)))))),
        snd (load (Stub.env_of Stub.offline) Stub.best_c Stub.best_w
               (Stub.start Stub.good_files (Stub.fresh false)))).
Proof.
  apply (load_digest_matches_disk (Stub.env_of Stub.offline) Stub.best_c Stub.best_w
           (Stub.start Stub.good_files (Stub.fresh false))).
  vm_compute. reflexivity.
Defined.

(** X10: [load] is not all-or-nothing on the object.  When the architecture
    file deserialises and [load_weights] then raises, [load] raises with
    [self.model] already replaced by the graph just deserialised (without
    weights), while [self.digest] still is the old digest. *)
Theorem load_weights_failure_replaces_model `{K : Keras}
    (env : environment) (config_path weight_path : string) (s : state)
    (text data : list byte) (j : Json) (m0 : Model) :
  let s1 := snd (sync_from_server env config_path weight_path s) in
  fs s1 !! config_path = Some text ->
  fs s1 !! weight_path = Some data ->
  json_load text = Some j ->
  Model_from_config j = Some m0 ->
  load_weights m0 data = None ->
  fst (load env config_path weight_path s) = Raise WeightsError
  /\ model (self (snd (load env config_path weight_path s))) = Some m0
  /\ digest (self (snd (load env config_path weight_path s))) = digest (self s).
Proof.
  intros s1 Hc Hw Hj Hm0 Hlw.
  rewrite load_eq. fold s1. rewrite load_local_eq, Hc, Hw, Hj, Hm0, Hlw. simpl.
  unfold s1. rewrite sync_from_server_self. auto.
Qed.

Lemma load_weights_failure_replaces_model_witness :
  fst (load (Stub.env_of Stub.offline) Stub.best_c Stub.best_w
         (Stub.start (<[Stub.best_w := []]> Stub.good_files) (Stub.built false)))
  = Raise WeightsError
  /\ model (self (snd (load (Stub.env_of Stub.offline) Stub.best_c Stub.best_w
         (Stub.start (<[Stub.best_w := []]> Stub.good_files) (Stub.built false)))))
     = Some {| Stub.arch := Stub.arch Stub.a_model; Stub.weights := [] |}
  /\ digest (self (snd (load (Stub.env_of Stub.offline) Stub.best_c Stub.best_w
         (Stub.start (<[Stub.best_w := []]> Stub.good_files) (Stub.built false)))))
     = digest (Stub.built false).
Proof.
  apply (load_weights_failure_replaces_model (Stub.env_of Stub.offline)
           Stub.best_c Stub.best_w
           (Stub.start (<[Stub.best_w := []]> Stub.good_files) (Stub.built false))
           Stub.a_config [] (Stub.arch Stub.a_model)
           {| Stub.arch := Stub.arch Stub.a_model; Stub.weights := [] |});
    vm_compute; reflexivity.
Defined.

(** X11: without the server (not distributed, or another config path),
    [load] is idempotent: a second [load] of the same pair returns what the
    first returned and leaves the state the first left. *)
Theorem load_twice `{K : Keras}
    (env : environment) (config_path weight_path : string) (s : state) :
  uses_server (config (self s)) config_path = false ->
  load env config_path weight_path (snd (load env config_path weight_path s))
  = load env config_path weight_path s.
Proof.
  intros Hu.
  assert (Hload : forall s0, uses_server (config (self s0)) config_path = false ->
                    load env config_path weight_path s0
                    = load_local config_path weight_path s0).
  { intros s0 H0. rewrite load_eq, sync_from_server_eq, H0. reflexivity. }
  rewrite (Hload s Hu).
  destruct (load_local_frame config_path weight_path s) as (_ & _ & Hcfg).
  rewrite Hload by (rewrite Hcfg; exact Hu).
  rewrite (load_local_eq config_path weight_path s).
  destruct (fs s !! config_path) as [text|] eqn:Ec;
    [destruct (fs s !! weight_path) as [data|] eqn:Ew|];
    [destruct (json_load text) as [j|] eqn:Ej;
      [destruct (Model_from_config j) as [m0|] eqn:Em0;
        [destruct (load_weights m0 data) as [m1|] eqn:Em1|]|]| |];
    simpl; rewrite load_local_eq; simpl;
    rewrite ?Ec, ?Ew, ?Ej, ?Em0, ?Em1; reflexivity.
Qed.

Lemma load_twice_witness :
  load (Stub.env_of Stub.offline) Stub.best_c Stub.best_w
    (snd (load (Stub.env_of Stub.offline) Stub.best_c Stub.best_w
            (Stub.start Stub.good_files (Stub.fresh false))))
  = load (Stub.env_of Stub.offline) Stub.best_c Stub.best_w
      (Stub.start Stub.good_files (Stub.fresh false)).
Proof.
  apply (load_twice (Stub.env_of Stub.offline) Stub.best_c Stub.best_w
           (Stub.start Stub.good_files (Stub.fresh false))).
  reflexivity.
Defined.

(** X12: [load] and [save] touch no file but the two they are given: every
    other path holds afterwards what it held before, whatever the server
    does and whether or not the call raises. *)
Theorem other_files_untouched `{K : Keras}
    (env : environment) (config_path weight_path other : string) (s : state) :
  other <> config_path ->
  other <> weight_path ->
  fs (snd (load env config_path weight_path s)) !! other = fs s !! other
  /\ fs (snd (save env config_path weight_path s)) !! other = fs s !! other.
Proof.
  intros Hc Hw. split.
  - rewrite load_eq.
    destruct (load_local_frame config_path weight_path
                (snd (sync_from_server env config_path weight_path s))) as (-> & _).
    apply sync_from_server_other; assumption.
  - destruct (model (self s)) as [m|] eqn:Hm.
    + destruct (save_final env config_path weight_path s m Hm) as (-> & _).
      rewrite save_local_eq, Hm. cbv zeta. simpl.
      rewrite !lookup_insert_ne by congruence. reflexivity.
    + rewrite (save_unbuilt env _ _ _ Hm). simpl.
      rewrite lookup_insert_ne by congruence. reflexivity.
Qed.

Lemma other_files_untouched_witness :
  fs (snd (load (Stub.env_of Stub.full_server) Stub.best_c "tmp/w.h5"
             (Stub.start Stub.good_files (Stub.fresh true)))) !! Stub.best_w
  = Stub.good_files !! Stub.best_w
  /\ fs (snd (save (Stub.env_of Stub.full_server) Stub.best_c "tmp/w.h5"
                (Stub.start Stub.good_files (Stub.fresh true)))) !! Stub.best_w
     = Stub.good_files !! Stub.best_w.
Proof.
  apply (other_files_untouched (Stub.env_of Stub.full_server) Stub.best_c "tmp/w.h5"
           Stub.best_w (Stub.start Stub.good_files (Stub.fresh true)));
    discriminate.
Defined.

(** X13: when the fetch goes through (login, [cwd] and both retrievals
    succeed), what [load] returns and what it leaves in the object do not
    depend on the local files found at the start: they are overwritten by the
    server's. *)
Theorem fetched_files_win `{K : Keras}
    (env : environment) (config_path weight_path : string) (s1 s2 : state) :
  let r := Config.resource (config (self s1)) in
  self s1 = self s2 ->
  uses_server (config (self s1)) config_path = true ->
  ftp_login (ftp env) (model_best_distributed_ftp_server r)
    (model_best_distributed_ftp_user r) (model_best_distributed_ftp_password r) = true ->
  ftp_cwd_ok (ftp env) (model_best_distributed_ftp_remote_path r) = true ->
  snd (ftp_retr (ftp env) "RETR model_best_config.json") = true ->
  snd (ftp_retr (ftp env) "RETR model_best_weight.h5") = true ->
  fst (load env config_path weight_path s1) = fst (load env config_path weight_path s2)
  /\ self (snd (load env config_path weight_path s1))
     = self (snd (load env config_path weight_path s2))
  /\ fs (snd (load env config_path weight_path s1)) !! weight_path
     = Some (fst (ftp_retr (ftp env) "RETR model_best_weight.h5")).
Proof.
  intros r Hself Hu Hlogin Hcwd Hrc Hrw.
  assert (Hsync : forall s0, self s0 = self s1 ->
            let t := snd (sync_from_server env config_path weight_path s0) in
            self t = self s1
            /\ fs t = <[weight_path := fst (ftp_retr (ftp env) "RETR model_best_weight.h5")]>
                        (<[config_path := fst (ftp_retr (ftp env) "RETR model_best_config.json")]>
                           (fs s0))).
  { intros s0 H0. cbv zeta. rewrite sync_from_server_eq, H0, Hu. simpl.
    rewrite load_from_server_eq. cbv zeta. rewrite H0. fold r.
    rewrite Hlogin, Hcwd, Hrc, Hrw. simpl. auto. }
  destruct (Hsync s1 eq_refl) as (Ha & Hfa).
  destruct (Hsync s2 (eq_sym Hself)) as (Hb & Hfb).
  rewrite !load_eq.
  split; [|split].
  - apply load_local_depends.
    + rewrite Hfa, Hfb. destruct (decide (config_path = weight_path)) as [->|Hne].
      * rewrite !lookup_insert_eq. reflexivity.
      * rewrite !(lookup_insert_ne _ weight_path config_path) by congruence.
        rewrite !lookup_insert_eq. reflexivity.
    + rewrite Hfa, Hfb, !lookup_insert_eq. reflexivity.
    + congruence.
  - apply load_local_depends.
    + rewrite Hfa, Hfb. destruct (decide (config_path = weight_path)) as [->|Hne].
      * rewrite !lookup_insert_eq. reflexivity.
      * rewrite !(lookup_insert_ne _ weight_path config_path) by congruence.
        rewrite !lookup_insert_eq. reflexivity.
    + rewrite Hfa, Hfb, !lookup_insert_eq. reflexivity.
    + congruence.
  - destruct (load_local_frame config_path weight_path
                (snd (sync_from_server env config_path weight_path s1))) as (-> & _).
    rewrite Hfa, lookup_insert_eq. reflexivity.
Qed.

Lemma fetched_files_win_witness :
  fst (load (Stub.env_of Stub.full_server) Stub.best_c Stub.best_w
         (Stub.start Stub.good_files (Stub.fresh true)))
  = fst (load (Stub.env_of Stub.full_server) Stub.best_c Stub.best_w
           (Stub.start ∅ (Stub.fresh true)))
  /\ self (snd (load (Stub.env_of Stub.full_server) Stub.best_c Stub.best_w
                  (Stub.start Stub.good_files (Stub.fresh true))))
     = self (snd (load (Stub.env_of Stub.full_server) Stub.best_c Stub.best_w
                    (Stub.start ∅ (Stub.fresh true))))
  /\ fs (snd (load (Stub.env_of Stub.full_server) Stub.best_c Stub.best_w
                (Stub.start Stub.good_files (Stub.fresh true)))) !! Stub.best_w
     = Some Stub.remote_weight.
Proof.
  apply (fetched_files_win (Stub.env_of Stub.full_server) Stub.best_c Stub.best_w
           (Stub.start Stub.good_files (Stub.fresh true))
           (Stub.start ∅ (Stub.fresh true)));
    reflexivity.
Defined.

(** ** More on the networks *)

Lemma range_succ (n : Z) : 0 <= n -> range (n + 1) = range n ++ [n].
Proof.
  intros Hn. unfold range.
  replace (Z.to_nat (n + 1)) with (Z.to_nat n + 1)%nat by lia.
  rewrite List.seq_app, List.map_app. simpl.
  rewrite Z2Nat.id by exact Hn. reflexivity.
Qed.

Lemma range_nonpositive (n : Z) : n <= 0 -> range n = [].
Proof.
  intros Hn. unfold range. replace (Z.to_nat n) with 0%nat by lia. reflexivity.
Qed.

(** X15: the residual tower is built block by block.  With [n + 1] blocks
    ([n >= 0]) it is block number [n + 1] applied to the tower of [n] blocks,
    so the blocks are numbered [1 .. res_layer_num] from the stem outwards;
    with a block count of zero or less it is the stem alone. *)
Theorem residual_tower_unrolls (cfg : Config.t) (in_x : tensor) (n : Z) :
  let mc := Config.model cfg in
  let with_blocks k :=
    {| Config.model :=
         {| cnn_filter_num := cnn_filter_num mc;
            cnn_first_filter_size := cnn_first_filter_size mc;
            cnn_filter_size := cnn_filter_size mc;
            res_layer_num := k;
            l2_reg := l2_reg mc;
            value_fc_size := value_fc_size mc;
            distributed := distributed mc |};
       Config.resource := Config.resource cfg;
       Config.n_labels := Config.n_labels cfg |} in
  0 <= n ->
  res_out (with_blocks (n + 1)) in_x
  = _build_residual_block (Config.model (with_blocks (n + 1)))
      (res_out (with_blocks n) in_x) (n + 1)
  /\ forall k, k <= 0 ->
       res_out (with_blocks k) in_x
       = Call (Activation act_relu (Some "input_relu"))
           [Call (BatchNormalization 1 (Some "input_batchnorm"))
              [Call (Conv2D (cnn_filter_num mc) (KInt (cnn_first_filter_size mc)) pad_same
                            "channels_first" false (Some (l2_reg mc))
                            (Some ("input_conv-" ++ str (cnn_first_filter_size mc)
                                     ++ "-" ++ str (cnn_filter_num mc))%string))
                 [in_x]]].
Proof.
  intros mc with_blocks Hn. split.
  - unfold res_out. cbn [Config.model with_blocks res_layer_num cnn_filter_num
                           cnn_first_filter_size cnn_filter_size l2_reg].
    rewrite range_succ by exact Hn.
    rewrite List.fold_left_app. reflexivity.
  - intros k Hk. unfold res_out.
    cbn [Config.model with_blocks res_layer_num cnn_filter_num
           cnn_first_filter_size cnn_filter_size l2_reg].
    rewrite range_nonpositive by exact Hk. reflexivity.
Qed.

Lemma residual_tower_unrolls_witness :
  let with_blocks k :=
    {| Config.model :=
         {| cnn_filter_num := 256; cnn_first_filter_size := 5; cnn_filter_size := 3;
            res_layer_num := k; l2_reg := 1 # 10000; value_fc_size := 256;
            distributed := false |};
       Config.resource := Stub.resources;
       Config.n_labels := 1968 |} in
  res_out (with_blocks (6 + 1)) (Input [18; 8; 8])
  = _build_residual_block (Config.model (with_blocks (6 + 1)))
      (res_out (with_blocks 6) (Input [18; 8; 8])) (6 + 1)
  /\ forall k, k <= 0 ->
       res_out (with_blocks k) (Input [18; 8; 8])
       = Call (Activation act_relu (Some "input_relu"))
           [Call (BatchNormalization 1 (Some "input_batchnorm"))
              [Call (Conv2D 256 (KInt 5) pad_same "channels_first" false (Some (1 # 10000))
                            (Some ("input_conv-" ++ str 5 ++ "-" ++ str 256)%string))
                 [Input [18; 8; 8]]]].
Proof.
  apply (residual_tower_unrolls (Stub.cfg false) (Input [18; 8; 8]) 6). lia.
Defined.

(** X16: the two helpers of the alternative network do return a tensor, and
    with "same" padding it has the requested number of channels over the
    unchanged board: [pointwise_conv] for any positive channel count,
    [separable_conv] for any positive channel count and kernel size. *)
Theorem better_helpers_keep_board (this : Better.attrs) (layer : tensor)
    (channels c h w : Z) (k : kernel) :
  Better.data_format this = "channels_first" ->
  shape_of layer = Some [c; h; w] ->
  0 < c -> 0 < h -> 0 < w ->
  0 < channels ->
  0 < fst (kernel_hw k) -> 0 < snd (kernel_hw k) ->
  (exists t, Better.pointwise_conv this layer channels = Return t
             /\ shape_of t = Some [channels; h; w])
  /\ (exists t, Better.separable_conv this layer channels k = Return t
                /\ shape_of t = Some [channels; h; w]).
Proof.
  intros Hdf Hlayer Hc Hh Hw Hch Hkh Hkw. split.
  - eexists. split; [reflexivity|].
    cbn [shape_of List.map layer_shape]. rewrite Hlayer, Hdf.
    rewrite (conv_shape_same_kernel channels c h w (KInt 1)) by (simpl; lia).
    reflexivity.
  - eexists. split; [reflexivity|].
    cbn [shape_of List.map layer_shape]. rewrite Hlayer, Hdf.
    rewrite (conv_shape_same_kernel channels c h w k) by assumption.
    reflexivity.
Qed.

Lemma better_helpers_keep_board_witness :
  (exists t, Better.pointwise_conv Better.init (Input [18; 8; 8]) 128 = Return t
             /\ shape_of t = Some [128; 8; 8])
  /\ (exists t, Better.separable_conv Better.init (Input [18; 8; 8]) 128 (KPair 1 15)
                = Return t
                /\ shape_of t = Some [128; 8; 8]).
Proof.
  apply (better_helpers_keep_board Better.init (Input [18; 8; 8]) 128 18 8 8 (KPair 1 15));
    reflexivity.
Defined.

(** ** get_pipes *)

Section GetPipesFacts.
Context `{S : Serving}.








End GetPipesFacts.


(** ** save, then load *)

(** X19: what [save] has written is always found by a later [load] of the
    same pair that does not go to the server: for every pair of paths, that
    [load] never returns false (it returns true or raises from a
    deserialiser), and when it returns true the loader's digest is the
    saver's. *)
Theorem load_after_save_finds_files `{K : Keras}
    (env1 env2 : environment) (config_path weight_path : string)
    (s : state) (cfg2 : Config.t) :
  let s1 := snd (save env1 config_path weight_path s) in
  let s2 := fresh_instance s1 cfg2 in
  is_Some (model (self s)) ->
  uses_server cfg2 config_path = false ->
  fst (load env2 config_path weight_path s2) <> Return false
  /\ (fst (load env2 config_path weight_path s2) = Return true ->
      digest (self (snd (load env2 config_path weight_path s2))) = digest (self s1)).
Proof.
  intros s1 s2 [m Hm] Hu.
  destruct (save_final env1 config_path weight_path s m Hm) as (Hfs & Hself).
  fold s1 in Hfs, Hself.
  destruct (save_local_weight_present env1 config_path weight_path s m Hm) as [data Hw].
  assert (Hc : is_Some (fs s1 !! config_path)).
  { rewrite Hfs, save_local_eq, Hm. cbv zeta. simpl.
    rewrite lookup_insert_eq. eexists; reflexivity. }
  destruct Hc as [text Hc]. pose proof Hw as Hw0. rewrite <- Hfs in Hw.
  rewrite load_eq, sync_from_server_eq. simpl. rewrite Hu.
  rewrite load_local_eq. simpl. rewrite Hc, Hw.
  destruct (json_load text) as [j|]; [|split; discriminate].
  destruct (Model_from_config j) as [m0|]; [|split; discriminate].
  destruct (load_weights m0 data) as [m1|]; [|split; discriminate].
  split; [discriminate|]. intros _. simpl. rewrite Hself. simpl. rewrite Hw0. reflexivity.
Qed.

Lemma load_after_save_finds_files_witness :
  fst (load (Stub.env_of Stub.offline) "model.out" "model.out"
         (fresh_instance (snd (save (Stub.env_of Stub.full_server) "model.out" "model.out"
                                 (Stub.start ∅ (Stub.built true))))
                         (Stub.cfg true)))
  <> Return false
  /\ (fst (load (Stub.env_of Stub.offline) "model.out" "model.out"
            (fresh_instance (snd (save (Stub.env_of Stub.full_server) "model.out" "model.out"
                                    (Stub.start ∅ (Stub.built true))))
                            (Stub.cfg true)))
      = Return true ->
      digest (self (snd (load (Stub.env_of Stub.offline) "model.out" "model.out"
            (fresh_instance (snd (save (Stub.env_of Stub.full_server) "model.out" "model.out"
                                    (Stub.start ∅ (Stub.built true))))
                            (Stub.cfg true)))))
      = digest (self (snd (save (Stub.env_of Stub.full_server) "model.out" "model.out"
                             (Stub.start ∅ (Stub.built true)))))).
Proof.
  apply (load_after_save_finds_files (Stub.env_of Stub.full_server)
           (Stub.env_of Stub.offline) "model.out" "model.out"
           (Stub.start ∅ (Stub.built true)) (Stub.cfg true));
    [eexists; reflexivity | reflexivity].
Defined.
